(** * cdktf-repository-manager: the repository constructs

    A shallow embedding of [lib/repository.ts] in its three revisions:

    - [Initial]: one issue label, optional branch protection, team binding,
      webhook;
    - [Earlier]: as [Initial], plus the CODEOWNERS file and [addSecret];
    - [Later]: three issue labels, review-gated branch protection, optional
      webhook, logical-id pinning, no CODEOWNERS file.

    A construct's constructor registers resource declarations into the
    enclosing construct tree.  The tree is modelled as the list of
    declarations in registration order, threaded through a state monad. *)

From Stdlib Require Import String Ascii List Bool Arith Lia DecimalString.
Import ListNotations.
Local Open Scope list_scope.
Local Open Scope string_scope.

Set Implicit Arguments.

(** ** Strings *)

(** The double quote character, as a one-character string. *)
Definition dq : string := String (ascii_of_nat 34) EmptyString.

(** The line feed, as a one-character string. *)
Definition lf : string := String (ascii_of_nat 10) EmptyString.

(** [Array.prototype.join]. *)
Definition join (sep : string) (parts : list string) : string :=
  String.concat sep parts.

(** [String.prototype.endsWith(searchString)] with the default end position:
    the search string is compared with the last [searchLength] characters,
    and the answer is [false] when the string is shorter than it. *)
Definition endsWith (s searchString : string) : bool :=
  let len := String.length s in
  let searchLength := String.length searchString in
  if Nat.ltb len searchLength then false
  else String.eqb (substring (len - searchLength) searchLength s) searchString.

(** Truthiness of an optional string: [undefined] and the empty string are
    falsy, every other string is truthy. *)
Definition truthy (v : option string) : bool :=
  match v with
  | None => false
  | Some s => negb (String.eqb s "")
  end.

(** ** Deferred expressions

    The [count] of the CODEOWNERS file is not a number but the text of an
    expression that the provisioning runtime evaluates.  [TfExpr] is the
    syntax of the expressions the source writes, [render] their text and
    [eval] the value the runtime gives them ([None] when it gives none: the
    text is not an expression, or the evaluation raises).  [TfRef] holds the
    text that the source splices into the template where the expression
    needs a reference. *)

Inductive TfExpr : Type :=
| TfString (s : string)
| TfRef (s : string)
| TfNumber (n : nat)
| TfRegex (pattern subject : TfExpr)
| TfEq (a b : TfExpr)
| TfCond (c t e : TfExpr).

Inductive TfValue : Type :=
| VString (s : string)
| VNumber (n : nat)
| VBool (b : bool).

Definition TfValue_eqb (a b : TfValue) : bool :=
  match a, b with
  | VString x, VString y => String.eqb x y
  | VNumber x, VNumber y => Nat.eqb x y
  | VBool x, VBool y => Bool.eqb x y
  | _, _ => false
  end.

Fixpoint render (e : TfExpr) : string :=
  match e with
  | TfString s => dq ++ s ++ dq
  | TfRef s => s
  | TfNumber n => NilEmpty.string_of_uint (Nat.to_uint n)
  | TfRegex p s => "regex(" ++ render p ++ ", " ++ render s ++ ")"
  | TfEq a b => render a ++ " == " ++ render b
  | TfCond c t e => render c ++ " ? " ++ render t ++ " : " ++ render e
  end.

(** A template interpolation: the expression text between [${] and [}]. *)
Definition interpolation (e : TfExpr) : string := "${" ++ render e ++ "}".

(** Leftmost occurrence of a literal pattern in a string.  The runtime's
    [regex(pattern, string)] searches the string for the pattern anywhere in
    it (the pattern is not anchored); a pattern without metacharacters, the
    only kind the source uses, matches exactly its own text. *)
Fixpoint search (pattern s : string) : option string :=
  if String.prefix pattern s then Some pattern
  else match s with
       | EmptyString => None
       | String _ rest => search pattern rest
       end.

(** The characters of a reference such as [github_repository.repo.name]:
    letters, digits, [_], [-] and the [.] between its parts. *)
Definition isReferenceChar (c : ascii) : bool :=
  let n := nat_of_ascii c in
  (Nat.leb 97 n && Nat.leb n 122)
  || (Nat.leb 65 n && Nat.leb n 90)
  || (Nat.leb 48 n && Nat.leb n 57)
  || Nat.eqb n 95 || Nat.eqb n 45 || Nat.eqb n 46.

Fixpoint allReferenceChars (s : string) : bool :=
  match s with
  | EmptyString => true
  | String c rest => isReferenceChar c && allReferenceChars rest
  end.

(** A text is a reference when it is not empty and made of reference
    characters; in particular a nested interpolation, which starts with [$],
    is none. *)
Definition isReference (s : string) : bool :=
  match s with
  | EmptyString => false
  | String _ _ => allReferenceChars s
  end.

(** What the references resolve to when the runtime evaluates. *)
Definition Env : Type := string -> option string.

(** Evaluation by the provisioning runtime.  A reference evaluates to the
    string it resolves to, and a spliced text that is not a reference has no
    value; [regex] returns the matched substring and raises when the pattern
    does not match at all. *)
Fixpoint eval (env : Env) (e : TfExpr) : option TfValue :=
  match e with
  | TfString s => Some (VString s)
  | TfRef s =>
      if isReference s then
        match env s with
        | Some v => Some (VString v)
        | None => None
        end
      else None
  | TfNumber n => Some (VNumber n)
  | TfRegex p s =>
      match eval env p, eval env s with
      | Some (VString pat), Some (VString subject) =>
          match search pat subject with
          | Some m => Some (VString m)
          | None => None
          end
      | _, _ => None
      end
  | TfEq a b =>
      match eval env a, eval env b with
      | Some x, Some y => Some (VBool (TfValue_eqb x y))
      | _, _ => None
      end
  | TfCond c t e =>
      match eval env c with
      | Some (VBool true) => eval env t
      | Some (VBool false) => eval env e
      | _ => None
      end
  end.

(** ** Provider resources *)

(** The provider handle: an opaque reference, told apart by its alias. *)
Record GithubProvider : Type := { alias : string }.

Record ITeam : Type := { id : string }.

Module IssueLabel.
Record Config : Type := {
  color : string;
  name : string;
  repository : string;
  provider : GithubProvider
}.
End IssueLabel.

Module BranchProtection.
Record RequiredPullRequestReviews : Type := {
  requiredApprovingReviewCount : nat;
  requireCodeOwnerReviews : bool;
  dismissStaleReviews : bool
}.
Record RequiredStatusChecks : Type := {
  strict : bool;
  contexts : list string
}.
Record Config : Type := {
  pattern : string;
  repositoryId : string;
  enforceAdmins : bool;
  allowsDeletions : bool;
  allowsForcePushes : bool;
  requiredPullRequestReviews : option (list RequiredPullRequestReviews);
  requireConversationResolution : option bool;
  requiredStatusChecks : list RequiredStatusChecks;
  provider : GithubProvider
}.
End BranchProtection.

Module TeamRepository.
Record Config : Type := {
  repository : string;
  teamId : string;
  permission : string;
  provider : GithubProvider
}.
End TeamRepository.

Module RepositoryWebhook.
Record Configuration : Type := {
  url : string;
  contentType : string
}.
Record Config : Type := {
  repository : string;
  configuration : Configuration;
  events : list string;
  provider : GithubProvider
}.
End RepositoryWebhook.

Module RepositoryFile.
Record Config : Type := {
  repository : string;
  count : string;
  file : string;
  content : string;
  provider : option GithubProvider
}.
End RepositoryFile.

Module Repository.
Record Config : Type := {
  name : string;
  description : string;
  archiveOnDestroy : option bool;
  visibility : string;
  homepageUrl : string;
  hasIssues : bool;
  hasWiki : bool;
  autoInit : bool;
  hasProjects : bool;
  deleteBranchOnMerge : bool;
  allowAutoMerge : option bool;
  allowUpdateBranch : option bool;
  squashMergeCommitMessage : option string;
  squashMergeCommitTitle : option string;
  vulnerabilityAlerts : option bool;
  topics : list string;
  provider : GithubProvider
}.
End Repository.

Module DataGithubRepository.
Record Config : Type := {
  name : string;
  provider : GithubProvider
}.
End DataGithubRepository.

(** ** The construct tree *)

(** A construct is identified by the ids on the way from the root to it. *)
Definition Path : Type := list string.

(** The identifier under which the provisioning runtime knows a construct.
    The construct library derives it from the construct's path; the text it
    gives is the library's own, and nothing below depends on it beyond its
    being one text per path. *)
Definition logicalId (p : Path) : string := String.concat "_" p.

(** The repository handle [Repository | DataGithubRepository]: the construct
    and the configuration it was declared with. *)
Inductive RepositoryHandle : Type :=
| OfRepository (p : Path) (c : Repository.Config)
| OfDataGithubRepository (p : Path) (c : DataGithubRepository.Config).

Module RepositoryHandle.
(** The construct the handle stands for. *)
Definition node (h : RepositoryHandle) : Path :=
  match h with
  | OfRepository p _ => p
  | OfDataGithubRepository p _ => p
  end.

(** How the runtime addresses the handle: a managed resource or a data
    lookup, by its identifier. *)
Definition address (h : RepositoryHandle) : string :=
  match h with
  | OfRepository p _ => "github_repository." ++ logicalId p
  | OfDataGithubRepository p _ => "data.github_repository." ++ logicalId p
  end.

(** The [name] attribute both kinds of handle expose.  Read from a handle it
    is not the configured name but a reference to the attribute of the
    handle, which the runtime resolves: an interpolation of the handle's
    address. *)
Definition name (h : RepositoryHandle) : string :=
  "${" ++ address h ++ ".name}".

(** The name the handle was configured with, to which the runtime resolves
    the attribute. *)
Definition configuredName (h : RepositoryHandle) : string :=
  match h with
  | OfRepository _ c => Repository.name c
  | OfDataGithubRepository _ c => DataGithubRepository.name c
  end.
End RepositoryHandle.

Module ActionsSecret.
(** Modelled from the spec: the secret-binding declaration made by
    [SecretFromVariable.for] ([lib/secrets.ts] is not among the sources):
    it binds the secret of the given name to a repository/provider pair. *)
Record Config : Type := {
  variable : string;
  repository : RepositoryHandle;
  provider : GithubProvider
}.
End ActionsSecret.

Inductive Resource : Type :=
| IssueLabel (c : IssueLabel.Config)
| BranchProtection (c : BranchProtection.Config)
| TeamRepository (c : TeamRepository.Config)
| RepositoryWebhook (c : RepositoryWebhook.Config)
| RepositoryFile (c : RepositoryFile.Config)
| Repository (c : Repository.Config)
| DataGithubRepository (c : DataGithubRepository.Config)
| ActionsSecret (c : ActionsSecret.Config).

Record Declaration : Type := {
  path : Path;
  resource : Resource;
  oldId : bool
}.

Definition Graph : Type := list Declaration.

(** Constructors run for their effect on the graph. *)
Definition Build (A : Type) : Type := Graph -> A * Graph.

Definition ret {A : Type} (a : A) : Build A := fun g => (a, g).

Definition bind {A B : Type} (m : Build A) (k : A -> Build B) : Build B :=
  fun g => let (a, g') := m g in k a g'.

Notation "x <- m ;; k" := (bind m (fun x => k))
  (at level 61, m at next level, right associativity).
Notation "m ;; k" := (bind m (fun _ => k))
  (at level 61, right associativity).

(** A registered declaration is addressed by its position in the graph. *)
Definition Handle : Type := nat.

(** A destructuring default: it applies when the property is [undefined]. *)
Definition orDefault {A : Type} (d : A) (o : option A) : A :=
  match o with
  | Some a => a
  | None => d
  end.

(** [new R(scope, id, config)]: the resource is registered under [scope]
    after everything registered before it. *)
Definition new_ (scope : Path) (id_ : string) (r : Resource) : Build Handle :=
  fun g =>
    (length g,
     (g ++ [{| path := (scope ++ [id_])%list;
               resource := r;
               oldId := false |}])%list).

Fixpoint update {A : Type} (i : nat) (f : A -> A) (l : list A) : list A :=
  match l, i with
  | [], _ => []
  | x :: rest, O => f x :: rest
  | x :: rest, S j => x :: update j f rest
  end.

Definition pin (d : Declaration) : Declaration :=
  {| path := path d; resource := resource d; oldId := true |}.

(** Modelled from the spec: [setOldId] of [lib/logical-id-override.ts], which
    is not among the sources.  It pins a stable identifier onto a declaration
    that is already registered, and changes nothing else. *)
Definition setOldId (h : Handle) : Build unit :=
  fun g => (tt, update h pin g).

(** What a constructor declares when it runs in an empty graph. *)
Definition declared {A : Type} (b : Build A) : Graph := snd (b []).

(** The result of a constructor run in an empty graph. *)
Definition result {A : Type} (b : Build A) : A := fst (b []).

(** What a constructor adds to the graph [g] it runs in: the declarations
    after those [g] already had. *)
Definition emitted {A : Type} (b : Build A) (g : Graph) : Graph :=
  skipn (length g) (snd (b g)).

(** A constructor appends: whatever graph it runs in, it leaves the
    declarations already there as they are, adds the same declarations after
    them and returns the same result. *)
Definition Appends {A : Type} (b : Build A) : Prop :=
  exists (a : A) (out : Graph), forall g, b g = (a, (g ++ out)%list).

(** ** Selecting declarations by kind *)

Definition issueLabels (g : Graph) : list IssueLabel.Config :=
  flat_map (fun d => match resource d with IssueLabel c => [c] | _ => [] end) g.

Definition branchProtections (g : Graph) : list BranchProtection.Config :=
  flat_map
    (fun d => match resource d with BranchProtection c => [c] | _ => [] end) g.

Definition teamRepositories (g : Graph) : list TeamRepository.Config :=
  flat_map
    (fun d => match resource d with TeamRepository c => [c] | _ => [] end) g.

Definition repositoryWebhooks (g : Graph) : list RepositoryWebhook.Config :=
  flat_map
    (fun d => match resource d with RepositoryWebhook c => [c] | _ => [] end) g.

Definition repositoryFiles (g : Graph) : list RepositoryFile.Config :=
  flat_map
    (fun d => match resource d with RepositoryFile c => [c] | _ => [] end) g.

Definition repositories (g : Graph) : list Repository.Config :=
  flat_map (fun d => match resource d with Repository c => [c] | _ => [] end) g.

Definition actionsSecrets (g : Graph) : list ActionsSecret.Config :=
  flat_map
    (fun d => match resource d with ActionsSecret c => [c] | _ => [] end) g.

Inductive Kind : Type :=
| KIssueLabel
| KBranchProtection
| KTeamRepository
| KRepositoryWebhook
| KRepositoryFile
| KRepository
| KDataGithubRepository
| KActionsSecret.

Definition kindOf (d : Declaration) : Kind :=
  match resource d with
  | IssueLabel _ => KIssueLabel
  | BranchProtection _ => KBranchProtection
  | TeamRepository _ => KTeamRepository
  | RepositoryWebhook _ => KRepositoryWebhook
  | RepositoryFile _ => KRepositoryFile
  | Repository _ => KRepository
  | DataGithubRepository _ => KDataGithubRepository
  | ActionsSecret _ => KActionsSecret
  end.

(** The repository name an auxiliary declaration refers to; the repository
    declarations themselves and the secret bindings have none. *)
Definition repositoryOf (d : Declaration) : option string :=
  match resource d with
  | IssueLabel c => Some (IssueLabel.repository c)
  | BranchProtection c => Some (BranchProtection.repositoryId c)
  | TeamRepository c => Some (TeamRepository.repository c)
  | RepositoryWebhook c => Some (RepositoryWebhook.repository c)
  | RepositoryFile c => Some (RepositoryFile.repository c)
  | Repository _ | DataGithubRepository _ | ActionsSecret _ => None
  end.

(** ** Secrets *)

Module SecretFromVariable.
Record t : Type := {
  node : Path;
  name : string
}.

(** Modelled from the spec: the constructor of [SecretFromVariable]
    ([lib/secrets.ts] is not among the sources), a construct named after the
    secret whose value comes from an external variable source. *)
Definition constructor (scope : Path) (name : string) : Build t :=
  ret {| node := (scope ++ [name])%list; name := name |}.

(** Modelled from the spec: [SecretFromVariable.for], which binds the
    secret to the repository/provider pair by one secret-binding
    declaration. *)
Definition for_ (this : t) (repository : RepositoryHandle)
    (provider : GithubProvider) : Build unit :=
  new_ (node this) "secret"
    (ActionsSecret {| ActionsSecret.variable := name this;
                      ActionsSecret.repository := repository;
                      ActionsSecret.provider := provider |}) ;;
  ret tt.
End SecretFromVariable.

(** ** The revision with the CODEOWNERS file ([lib/repository.ts]) *)

Module Earlier.

Record RepositoryConfig : Type := {
  description : option string;
  topics : option (list string);
  team : ITeam;
  protectMain : option bool;
  protectMainChecks : option (list string);
  webhookUrl : string;
  provider : GithubProvider
}.

(** The expression in the [count] of the CODEOWNERS file, where
    [repositoryName] is the text spliced in for the repository's name. *)
Definition codeownersCount (repositoryName : string) : TfExpr :=
  TfCond (TfEq (TfRegex (TfString "-go") (TfRef repositoryName))
               (TfString "-go"))
         (TfNumber 1) (TfNumber 0).

Module RepositorySetup.
Record Config : Type := {
  team : ITeam;
  webhookUrl : string;
  provider : GithubProvider;
  protectMain : option bool;
  protectMainChecks : option (list string);
  repository : RepositoryHandle
}.

Definition constructor (scope : Path) (name : string) (config : Config)
    : Build unit :=
  let this := (scope ++ [name])%list in
  let protectMain := orDefault false (protectMain config) in
  let protectMainChecks :=
    orDefault ["build"] (protectMainChecks config) in
  let provider := provider config in
  let repository := repository config in
  let team := team config in
  let webhookUrl := webhookUrl config in
  new_ this "automerge-label"
    (IssueLabel
       {| IssueLabel.color := "5DC8DB";
          IssueLabel.name := "automerge";
          IssueLabel.repository := RepositoryHandle.name repository;
          IssueLabel.provider := provider |}) ;;
  (if protectMain then
     new_ this "main-protection"
       (BranchProtection
          {| BranchProtection.pattern := "main";
             BranchProtection.repositoryId :=
               RepositoryHandle.name repository;
             BranchProtection.enforceAdmins := true;
             BranchProtection.allowsDeletions := false;
             BranchProtection.allowsForcePushes := false;
             BranchProtection.requiredPullRequestReviews := None;
             BranchProtection.requireConversationResolution := None;
             BranchProtection.requiredStatusChecks :=
               [ {| BranchProtection.strict := true;
                    BranchProtection.contexts := protectMainChecks |} ];
             BranchProtection.provider := provider |}) ;;
     ret tt
   else ret tt) ;;
  new_ this "managing-team"
    (TeamRepository
       {| TeamRepository.repository := RepositoryHandle.name repository;
          TeamRepository.teamId := id team;
          TeamRepository.permission := "admin";
          TeamRepository.provider := provider |}) ;;
  new_ this "slack-webhook"
    (RepositoryWebhook
       {| RepositoryWebhook.repository := RepositoryHandle.name repository;
          RepositoryWebhook.configuration :=
            {| RepositoryWebhook.url := webhookUrl;
               RepositoryWebhook.contentType := "json" |};
          RepositoryWebhook.events := ["issues"];
          RepositoryWebhook.provider := provider |}) ;;
  new_ this "codeowners"
    (RepositoryFile
       {| RepositoryFile.repository := RepositoryHandle.name repository;
          RepositoryFile.count :=
            "${regex(" ++ dq ++ "-go" ++ dq ++ ", "
            ++ RepositoryHandle.name repository
            ++ ") == " ++ dq ++ "-go" ++ dq ++ " ? 1 : 0}";
          RepositoryFile.file := ".github/CODEOWNERS";
          RepositoryFile.content :=
            join lf
              [ "# These owners will be the default owners for everything in ";
                "# the repo. Unless a later match takes precedence, ";
                "# they will be requested for review when someone opens a ";
                "# pull request.";
                "*       @cdktf/tf-cdk-team" ];
          RepositoryFile.provider := None |}) ;;
  ret tt.
End RepositorySetup.

(** [{ ...config, repository }] for a full [RepositoryConfig]: the
    properties [RepositorySetup] reads are those of [config]. *)
Definition spread (config : RepositoryConfig) (repository : RepositoryHandle)
    : RepositorySetup.Config :=
  {| RepositorySetup.team := team config;
     RepositorySetup.webhookUrl := webhookUrl config;
     RepositorySetup.provider := provider config;
     RepositorySetup.protectMain := protectMain config;
     RepositorySetup.protectMainChecks := protectMainChecks config;
     RepositorySetup.repository := repository |}.

Module GithubRepository.
Record t : Type := {
  node : Path;
  resource : RepositoryHandle;
  provider : GithubProvider
}.

Definition defaultTopics : list string :=
  [ "cdktf"; "terraform"; "terraform-cdk"; "cdk"; "provider";
    "pre-built-provider" ].

Definition constructor (scope : Path) (name : string)
    (config : RepositoryConfig) : Build t :=
  let this := (scope ++ [name])%list in
  let topics := orDefault defaultTopics (topics config) in
  let description :=
    orDefault "Repository management for prebuilt cdktf providers via cdktf"
      (description config) in
  let provider := Earlier.provider config in
  let repo :=
    {| Repository.name := name;
       Repository.description := description;
       Repository.archiveOnDestroy := None;
       Repository.visibility := "public";
       Repository.homepageUrl := "https://cdk.tf";
       Repository.hasIssues := true;
       Repository.hasWiki := false;
       Repository.autoInit := true;
       Repository.hasProjects := false;
       Repository.deleteBranchOnMerge := true;
       Repository.allowAutoMerge := None;
       Repository.allowUpdateBranch := None;
       Repository.squashMergeCommitMessage := None;
       Repository.squashMergeCommitTitle := None;
       Repository.vulnerabilityAlerts := None;
       Repository.topics := topics;
       Repository.provider := provider |} in
  new_ this "repo" (Repository repo) ;;
  let resource := OfRepository (this ++ ["repo"])%list repo in
  RepositorySetup.constructor this "repository-setup"
    (spread config resource) ;;
  ret {| node := this; resource := resource; provider := provider |}.

Definition addSecret (this : t) (name : string) : Build unit :=
  variable <- SecretFromVariable.constructor (node this) name ;;
  SecretFromVariable.for_ variable (resource this) (provider this).
End GithubRepository.

Module GithubRepositoryFromExistingRepository.
(** The config object.  Its declared type has the first four properties.
    The last two are own properties the object may carry beyond them: the
    type admits them on an object that is not written as a literal in the
    call, and the spread below copies them like the others. *)
Record Config : Type := {
  team : ITeam;
  webhookUrl : string;
  provider : GithubProvider;
  repositoryName : string;
  protectMain : option bool;
  protectMainChecks : option (list string)
}.

Record t : Type := {
  node : Path;
  resource : RepositoryHandle
}.

(** [{ ...config, repository }]: every own property of the config is
    copied, declared or not; [repositoryName] is one [RepositorySetup] does
    not read. *)
Definition spread (config : Config) (repository : RepositoryHandle)
    : RepositorySetup.Config :=
  {| RepositorySetup.team := team config;
     RepositorySetup.webhookUrl := webhookUrl config;
     RepositorySetup.provider := provider config;
     RepositorySetup.protectMain := protectMain config;
     RepositorySetup.protectMainChecks := protectMainChecks config;
     RepositorySetup.repository := repository |}.

Definition constructor (scope : Path) (name : string) (config : Config)
    : Build t :=
  let this := (scope ++ [name])%list in
  let data :=
    {| DataGithubRepository.name := repositoryName config;
       DataGithubRepository.provider := provider config |} in
  new_ this "repo" (DataGithubRepository data) ;;
  let resource := OfDataGithubRepository (this ++ ["repo"])%list data in
  RepositorySetup.constructor this "repository-setup"
    (spread config resource) ;;
  ret {| node := this; resource := resource |}.
End GithubRepositoryFromExistingRepository.

End Earlier.

(** ** The first revision: no CODEOWNERS file, no secrets *)

Module Initial.

Record RepositoryConfig : Type := {
  description : option string;
  topics : option (list string);
  team : ITeam;
  protectMain : option bool;
  protectMainChecks : option (list string);
  webhookUrl : string;
  provider : GithubProvider
}.

Module RepositorySetup.
Record Config : Type := {
  team : ITeam;
  webhookUrl : string;
  provider : GithubProvider;
  protectMain : option bool;
  protectMainChecks : option (list string);
  repository : RepositoryHandle
}.

Definition constructor (scope : Path) (name : string) (config : Config)
    : Build unit :=
  let this := (scope ++ [name])%list in
  let protectMain := orDefault false (protectMain config) in
  let protectMainChecks :=
    orDefault ["build"] (protectMainChecks config) in
  let provider := provider config in
  let repository := repository config in
  let team := team config in
  let webhookUrl := webhookUrl config in
  new_ this "automerge-label"
    (IssueLabel
       {| IssueLabel.color := "5DC8DB";
          IssueLabel.name := "automerge";
          IssueLabel.repository := RepositoryHandle.name repository;
          IssueLabel.provider := provider |}) ;;
  (if protectMain then
     new_ this "main-protection"
       (BranchProtection
          {| BranchProtection.pattern := "main";
             BranchProtection.repositoryId :=
               RepositoryHandle.name repository;
             BranchProtection.enforceAdmins := true;
             BranchProtection.allowsDeletions := false;
             BranchProtection.allowsForcePushes := false;
             BranchProtection.requiredPullRequestReviews := None;
             BranchProtection.requireConversationResolution := None;
             BranchProtection.requiredStatusChecks :=
               [ {| BranchProtection.strict := true;
                    BranchProtection.contexts := protectMainChecks |} ];
             BranchProtection.provider := provider |}) ;;
     ret tt
   else ret tt) ;;
  new_ this "managing-team"
    (TeamRepository
       {| TeamRepository.repository := RepositoryHandle.name repository;
          TeamRepository.teamId := id team;
          TeamRepository.permission := "admin";
          TeamRepository.provider := provider |}) ;;
  new_ this "slack-webhook"
    (RepositoryWebhook
       {| RepositoryWebhook.repository := RepositoryHandle.name repository;
          RepositoryWebhook.configuration :=
            {| RepositoryWebhook.url := webhookUrl;
               RepositoryWebhook.contentType := "json" |};
          RepositoryWebhook.events := ["issues"];
          RepositoryWebhook.provider := provider |}) ;;
  ret tt.
End RepositorySetup.

Definition spread (config : RepositoryConfig) (repository : RepositoryHandle)
    : RepositorySetup.Config :=
  {| RepositorySetup.team := team config;
     RepositorySetup.webhookUrl := webhookUrl config;
     RepositorySetup.provider := provider config;
     RepositorySetup.protectMain := protectMain config;
     RepositorySetup.protectMainChecks := protectMainChecks config;
     RepositorySetup.repository := repository |}.

Module GithubRepository.
Record t : Type := {
  node : Path;
  resource : RepositoryHandle
}.

Definition defaultTopics : list string :=
  [ "cdktf"; "terraform"; "terraform-cdk"; "cdk"; "provider";
    "pre-built-provider" ].

Definition constructor (scope : Path) (name : string)
    (config : RepositoryConfig) : Build t :=
  let this := (scope ++ [name])%list in
  let topics := orDefault defaultTopics (topics config) in
  let description :=
    orDefault "Repository management for prebuilt cdktf providers via cdktf"
      (description config) in
  let provider := provider config in
  let repo :=
    {| Repository.name := name;
       Repository.description := description;
       Repository.archiveOnDestroy := None;
       Repository.visibility := "public";
       Repository.homepageUrl := "https://cdk.tf";
       Repository.hasIssues := true;
       Repository.hasWiki := false;
       Repository.autoInit := true;
       Repository.hasProjects := false;
       Repository.deleteBranchOnMerge := true;
       Repository.allowAutoMerge := None;
       Repository.allowUpdateBranch := None;
       Repository.squashMergeCommitMessage := None;
       Repository.squashMergeCommitTitle := None;
       Repository.vulnerabilityAlerts := None;
       Repository.topics := topics;
       Repository.provider := provider |} in
  new_ this "repo" (Repository repo) ;;
  let resource := OfRepository (this ++ ["repo"])%list repo in
  RepositorySetup.constructor this "repository-setup"
    (spread config resource) ;;
  ret {| node := this; resource := resource |}.
End GithubRepository.

Module GithubRepositoryFromExistingRepository.
(** The config object.  Its declared type has the first four properties.
    The last two are own properties the object may carry beyond them: the
    type admits them on an object that is not written as a literal in the
    call, and the spread below copies them like the others. *)
Record Config : Type := {
  team : ITeam;
  webhookUrl : string;
  provider : GithubProvider;
  repositoryName : string;
  protectMain : option bool;
  protectMainChecks : option (list string)
}.

Record t : Type := {
  node : Path;
  resource : RepositoryHandle
}.

(** [{ ...config, repository }]: every own property of the config is
    copied, declared or not; [repositoryName] is one [RepositorySetup] does
    not read. *)
Definition spread (config : Config) (repository : RepositoryHandle)
    : RepositorySetup.Config :=
  {| RepositorySetup.team := team config;
     RepositorySetup.webhookUrl := webhookUrl config;
     RepositorySetup.provider := provider config;
     RepositorySetup.protectMain := protectMain config;
     RepositorySetup.protectMainChecks := protectMainChecks config;
     RepositorySetup.repository := repository |}.

Definition constructor (scope : Path) (name : string) (config : Config)
    : Build t :=
  let this := (scope ++ [name])%list in
  let data :=
    {| DataGithubRepository.name := repositoryName config;
       DataGithubRepository.provider := provider config |} in
  new_ this "repo" (DataGithubRepository data) ;;
  let resource := OfDataGithubRepository (this ++ ["repo"])%list data in
  RepositorySetup.constructor this "repository-setup"
    (spread config resource) ;;
  ret {| node := this; resource := resource |}.
End GithubRepositoryFromExistingRepository.

End Initial.

(** ** The later revision: optional webhook, pinned logical ids *)

Module Later.

Record RepositoryConfig : Type := {
  description : option string;
  topics : option (list string);
  team : ITeam;
  protectMain : option bool;
  protectMainChecks : option (list string);
  webhookUrl : option string;
  provider : GithubProvider
}.

Module RepositorySetup.
Record Config : Type := {
  team : ITeam;
  webhookUrl : option string;
  provider : GithubProvider;
  protectMain : option bool;
  protectMainChecks : option (list string);
  repository : RepositoryHandle
}.

Definition constructor (scope : Path) (name : string) (config : Config)
    : Build unit :=
  let this := (scope ++ [name])%list in
  let protectMain := orDefault false (protectMain config) in
  let protectMainChecks :=
    orDefault ["build"; "license/cla"] (protectMainChecks config) in
  let provider := provider config in
  let repository := repository config in
  let team := team config in
  let webhookUrl := webhookUrl config in
  (label <- new_ this "automerge-label"
     (IssueLabel
        {| IssueLabel.color := "5DC8DB";
           IssueLabel.name := "automerge";
           IssueLabel.repository := RepositoryHandle.name repository;
           IssueLabel.provider := provider |}) ;;
   setOldId label) ;;
  (label <- new_ this "no-auto-close-label"
     (IssueLabel
        {| IssueLabel.color := "EE2222";
           IssueLabel.name := "no-auto-close";
           IssueLabel.repository := RepositoryHandle.name repository;
           IssueLabel.provider := provider |}) ;;
   setOldId label) ;;
  new_ this "auto-approve-label"
    (IssueLabel
       {| IssueLabel.color := "8BF8BD";
          IssueLabel.name := "auto-approve";
          IssueLabel.repository := RepositoryHandle.name repository;
          IssueLabel.provider := provider |}) ;;
  (if protectMain then
     protection <- new_ this "main-protection"
       (BranchProtection
          {| BranchProtection.pattern := "main";
             BranchProtection.repositoryId :=
               RepositoryHandle.name repository;
             BranchProtection.enforceAdmins := true;
             BranchProtection.allowsDeletions := false;
             BranchProtection.allowsForcePushes := false;
             BranchProtection.requiredPullRequestReviews :=
               Some
                 [ {| BranchProtection.requiredApprovingReviewCount := 1;
                      BranchProtection.requireCodeOwnerReviews := false;
                      BranchProtection.dismissStaleReviews := false |} ];
             BranchProtection.requireConversationResolution := Some true;
             BranchProtection.requiredStatusChecks :=
               [ {| BranchProtection.strict := true;
                    BranchProtection.contexts := protectMainChecks |} ];
             BranchProtection.provider := provider |}) ;;
     setOldId protection
   else ret tt) ;;
  (binding <- new_ this "managing-team"
     (TeamRepository
        {| TeamRepository.repository := RepositoryHandle.name repository;
           TeamRepository.teamId := id team;
           TeamRepository.permission := "admin";
           TeamRepository.provider := provider |}) ;;
   setOldId binding) ;;
  (if truthy webhookUrl then
     webhook <- new_ this "slack-webhook"
       (RepositoryWebhook
          {| RepositoryWebhook.repository :=
               RepositoryHandle.name repository;
             RepositoryWebhook.configuration :=
               {| (* narrowed to a string by the test above *)
                  RepositoryWebhook.url := orDefault "" webhookUrl;
                  RepositoryWebhook.contentType := "json" |};
             RepositoryWebhook.events := ["issues"];
             RepositoryWebhook.provider := provider |}) ;;
     setOldId webhook
   else ret tt).
End RepositorySetup.

Definition spread (config : RepositoryConfig) (repository : RepositoryHandle)
    : RepositorySetup.Config :=
  {| RepositorySetup.team := team config;
     RepositorySetup.webhookUrl := webhookUrl config;
     RepositorySetup.provider := provider config;
     RepositorySetup.protectMain := protectMain config;
     RepositorySetup.protectMainChecks := protectMainChecks config;
     RepositorySetup.repository := repository |}.

Module GithubRepository.
Record t : Type := {
  node : Path;
  resource : RepositoryHandle;
  provider : GithubProvider
}.

Definition defaultTopics : list string :=
  [ "cdktf"; "terraform"; "terraform-cdk"; "cdk"; "provider";
    "pre-built-provider" ].

Definition constructor (scope : Path) (name : string)
    (config : RepositoryConfig) : Build t :=
  let this := (scope ++ [name])%list in
  let topics := orDefault defaultTopics (topics config) in
  let description :=
    orDefault "Repository management for prebuilt cdktf providers via cdktf"
      (description config) in
  let provider := Later.provider config in
  let repo :=
    {| Repository.name := name;
       Repository.description := description;
       Repository.archiveOnDestroy := Some true;
       Repository.visibility := "public";
       Repository.homepageUrl := "https://cdk.tf";
       Repository.hasIssues := negb (endsWith name "-go");
       Repository.hasWiki := false;
       Repository.autoInit := true;
       Repository.hasProjects := false;
       Repository.deleteBranchOnMerge := true;
       Repository.allowAutoMerge := Some true;
       Repository.allowUpdateBranch := Some true;
       Repository.squashMergeCommitMessage := Some "PR_BODY";
       Repository.squashMergeCommitTitle := Some "PR_TITLE";
       Repository.vulnerabilityAlerts := Some true;
       Repository.topics := topics;
       Repository.provider := provider |} in
  handle <- new_ this "repo" (Repository repo) ;;
  let resource := OfRepository (this ++ ["repo"])%list repo in
  setOldId handle ;;
  RepositorySetup.constructor this "repository-setup"
    (spread config resource) ;;
  ret {| node := this; resource := resource; provider := provider |}.

Definition addSecret (this : t) (name : string) : Build unit :=
  variable <- SecretFromVariable.constructor (node this) name ;;
  SecretFromVariable.for_ variable (resource this) (provider this).
End GithubRepository.

Module GithubRepositoryFromExistingRepository.
Record Config : Type := {
  description : option string;
  topics : option (list string);
  team : ITeam;
  protectMain : option bool;
  protectMainChecks : option (list string);
  webhookUrl : option string;
  provider : GithubProvider;
  repositoryName : string
}.

Record t : Type := {
  node : Path;
  resource : RepositoryHandle
}.

Definition spread (config : Config) (repository : RepositoryHandle)
    : RepositorySetup.Config :=
  {| RepositorySetup.team := team config;
     RepositorySetup.webhookUrl := webhookUrl config;
     RepositorySetup.provider := provider config;
     RepositorySetup.protectMain := protectMain config;
     RepositorySetup.protectMainChecks := protectMainChecks config;
     RepositorySetup.repository := repository |}.

Definition constructor (scope : Path) (name : string) (config : Config)
    : Build t :=
  let this := (scope ++ [name])%list in
  let data :=
    {| DataGithubRepository.name := repositoryName config;
       DataGithubRepository.provider := provider config |} in
  new_ this "repo" (DataGithubRepository data) ;;
  let resource := OfDataGithubRepository (this ++ ["repo"])%list data in
  RepositorySetup.constructor this "repository-setup"
    (spread config resource) ;;
  ret {| node := this; resource := resource |}.
End GithubRepositoryFromExistingRepository.

End Later.

(** ** Sample inputs *)

Module Sample.
Definition github : GithubProvider := {| alias := "github" |}.

Definition tfCdkTeam : ITeam := {| id := "4567890" |}.

Definition stack : Path := ["repos"].

Definition laterExisting (protectMain : option bool)
    : Later.GithubRepositoryFromExistingRepository.Config :=
  {| Later.GithubRepositoryFromExistingRepository.description := None;
     Later.GithubRepositoryFromExistingRepository.topics := None;
     Later.GithubRepositoryFromExistingRepository.team := tfCdkTeam;
     Later.GithubRepositoryFromExistingRepository.protectMain := protectMain;
     Later.GithubRepositoryFromExistingRepository.protectMainChecks := None;
     Later.GithubRepositoryFromExistingRepository.webhookUrl := None;
     Later.GithubRepositoryFromExistingRepository.provider := github;
     Later.GithubRepositoryFromExistingRepository.repositoryName :=
       "cdktf-provider-aws" |}.

(** A graph that already holds the declarations of another repository. *)
Definition busy : Graph :=
  declared
    (Later.GithubRepositoryFromExistingRepository.constructor stack
       "cdktf-provider-aws" (laterExisting None)).

(** A looked-up repository of the given name. *)
Definition existing (repositoryName : string) : RepositoryHandle :=
  OfDataGithubRepository (stack ++ [repositoryName; "repo"])%list
    {| DataGithubRepository.name := repositoryName;
       DataGithubRepository.provider := github |}.

Definition earlierSetup (protectMain : option bool)
    (repositoryName : string) : Earlier.RepositorySetup.Config :=
  {| Earlier.RepositorySetup.team := tfCdkTeam;
     Earlier.RepositorySetup.webhookUrl := "https://hooks.example/T0/B0";
     Earlier.RepositorySetup.provider := github;
     Earlier.RepositorySetup.protectMain := protectMain;
     Earlier.RepositorySetup.protectMainChecks := None;
     Earlier.RepositorySetup.repository := existing repositoryName |}.

Definition initialSetup (protectMain : option bool)
    : Initial.RepositorySetup.Config :=
  {| Initial.RepositorySetup.team := tfCdkTeam;
     Initial.RepositorySetup.webhookUrl := "https://hooks.example/T0/B0";
     Initial.RepositorySetup.provider := github;
     Initial.RepositorySetup.protectMain := protectMain;
     Initial.RepositorySetup.protectMainChecks := None;
     Initial.RepositorySetup.repository := existing "cdktf-provider-aws" |}.

Definition laterSetup (protectMain : option bool)
    (webhookUrl : option string) : Later.RepositorySetup.Config :=
  {| Later.RepositorySetup.team := tfCdkTeam;
     Later.RepositorySetup.webhookUrl := webhookUrl;
     Later.RepositorySetup.provider := github;
     Later.RepositorySetup.protectMain := protectMain;
     Later.RepositorySetup.protectMainChecks := None;
     Later.RepositorySetup.repository := existing "cdktf-provider-aws" |}.

Definition earlierConfig (topics : option (list string))
    : Earlier.RepositoryConfig :=
  {| Earlier.description := None;
     Earlier.topics := topics;
     Earlier.team := tfCdkTeam;
     Earlier.protectMain := Some true;
     Earlier.protectMainChecks := None;
     Earlier.webhookUrl := "https://hooks.example/T0/B0";
     Earlier.provider := github |}.

Definition laterConfig (topics : option (list string))
    : Later.RepositoryConfig :=
  {| Later.description := None;
     Later.topics := topics;
     Later.team := tfCdkTeam;
     Later.protectMain := Some true;
     Later.protectMainChecks := None;
     Later.webhookUrl := Some "https://hooks.example/T0/B0";
     Later.provider := github |}.
End Sample.

(** ** Further selectors and views *)

Definition dataGithubRepositories (g : Graph)
    : list DataGithubRepository.Config :=
  flat_map
    (fun d =>
       match resource d with DataGithubRepository c => [c] | _ => [] end) g.

(** The provider a declaration is given; [None] when the source passes no
    [provider] property. *)
Definition providerOf (d : Declaration) : option GithubProvider :=
  match resource d with
  | IssueLabel c => Some (IssueLabel.provider c)
  | BranchProtection c => Some (BranchProtection.provider c)
  | TeamRepository c => Some (TeamRepository.provider c)
  | RepositoryWebhook c => Some (RepositoryWebhook.provider c)
  | RepositoryFile c => RepositoryFile.provider c
  | Repository c => Some (Repository.provider c)
  | DataGithubRepository c => Some (DataGithubRepository.provider c)
  | ActionsSecret c => Some (ActionsSecret.provider c)
  end.

(** The config of the first revision with the same properties as one of the
    revision with the CODEOWNERS file; the two interfaces are the same. *)
Definition asInitial (config : Earlier.RepositorySetup.Config)
    : Initial.RepositorySetup.Config :=
  {| Initial.RepositorySetup.team := Earlier.RepositorySetup.team config;
     Initial.RepositorySetup.webhookUrl :=
       Earlier.RepositorySetup.webhookUrl config;
     Initial.RepositorySetup.provider :=
       Earlier.RepositorySetup.provider config;
     Initial.RepositorySetup.protectMain :=
       Earlier.RepositorySetup.protectMain config;
     Initial.RepositorySetup.protectMainChecks :=
       Earlier.RepositorySetup.protectMainChecks config;
     Initial.RepositorySetup.repository :=
       Earlier.RepositorySetup.repository config |}.

(** The declarations of a graph that all lie below one construct. *)
Definition Under (p : Path) (g : Graph) : Prop :=
  Forall (fun d => exists rest, path d = (p ++ rest)%list) g.

(** A top-level construct of either kind, of any revision, with its config. *)
Inductive Construct : Type :=
| InitialGithubRepository (config : Initial.RepositoryConfig)
| InitialFromExisting
    (config : Initial.GithubRepositoryFromExistingRepository.Config)
| EarlierGithubRepository (config : Earlier.RepositoryConfig)
| EarlierFromExisting
    (config : Earlier.GithubRepositoryFromExistingRepository.Config)
| LaterGithubRepository (config : Later.RepositoryConfig)
| LaterFromExisting
    (config : Later.GithubRepositoryFromExistingRepository.Config).

(** What the construct declares when it is created in [scope] under [name],
    in the graph [g]. *)
Definition constructed (scope : Path) (name : string) (k : Construct)
    (g : Graph) : Graph :=
  match k with
  | InitialGithubRepository config =>
      emitted (Initial.GithubRepository.constructor scope name config) g
  | InitialFromExisting config =>
      emitted
        (Initial.GithubRepositoryFromExistingRepository.constructor
           scope name config) g
  | EarlierGithubRepository config =>
      emitted (Earlier.GithubRepository.constructor scope name config) g
  | EarlierFromExisting config =>
      emitted
        (Earlier.GithubRepositoryFromExistingRepository.constructor
           scope name config) g
  | LaterGithubRepository config =>
      emitted (Later.GithubRepository.constructor scope name config) g
  | LaterFromExisting config =>
      emitted
        (Later.GithubRepositoryFromExistingRepository.constructor
           scope name config) g
  end.

(** Further sample inputs. *)
Module Case.
Definition initialSetup (protectMain : option bool)
    (protectMainChecks : option (list string)) (r : RepositoryHandle)
    : Initial.RepositorySetup.Config :=
  {| Initial.RepositorySetup.team := Sample.tfCdkTeam;
     Initial.RepositorySetup.webhookUrl := "https://hooks.example/T0/B0";
     Initial.RepositorySetup.provider := Sample.github;
     Initial.RepositorySetup.protectMain := protectMain;
     Initial.RepositorySetup.protectMainChecks := protectMainChecks;
     Initial.RepositorySetup.repository := r |}.

Definition earlierSetup (protectMain : option bool)
    (protectMainChecks : option (list string)) (r : RepositoryHandle)
    : Earlier.RepositorySetup.Config :=
  {| Earlier.RepositorySetup.team := Sample.tfCdkTeam;
     Earlier.RepositorySetup.webhookUrl := "https://hooks.example/T0/B0";
     Earlier.RepositorySetup.provider := Sample.github;
     Earlier.RepositorySetup.protectMain := protectMain;
     Earlier.RepositorySetup.protectMainChecks := protectMainChecks;
     Earlier.RepositorySetup.repository := r |}.

Definition laterSetup (protectMain : option bool)
    (protectMainChecks : option (list string)) (webhookUrl : option string)
    (r : RepositoryHandle) : Later.RepositorySetup.Config :=
  {| Later.RepositorySetup.team := Sample.tfCdkTeam;
     Later.RepositorySetup.webhookUrl := webhookUrl;
     Later.RepositorySetup.provider := Sample.github;
     Later.RepositorySetup.protectMain := protectMain;
     Later.RepositorySetup.protectMainChecks := protectMainChecks;
     Later.RepositorySetup.repository := r |}.

(** A repository resource of the given name, declared under [Sample.stack]
    with otherwise arbitrary settings. *)
Definition created (repositoryName : string) : RepositoryHandle :=
  OfRepository (Sample.stack ++ [repositoryName; "repo"])%list
    {| Repository.name := repositoryName;
       Repository.description := "";
       Repository.archiveOnDestroy := None;
       Repository.visibility := "public";
       Repository.homepageUrl := "https://cdk.tf";
       Repository.hasIssues := true;
       Repository.hasWiki := false;
       Repository.autoInit := true;
       Repository.hasProjects := false;
       Repository.deleteBranchOnMerge := true;
       Repository.allowAutoMerge := None;
       Repository.allowUpdateBranch := None;
       Repository.squashMergeCommitMessage := None;
       Repository.squashMergeCommitTitle := None;
       Repository.vulnerabilityAlerts := None;
       Repository.topics := [];
       Repository.provider := Sample.github |}.
(** A config for an existing repository that, beyond the declared
    properties, may carry [protectMain]. *)
Definition earlierExisting (protectMain : option bool)
    : Earlier.GithubRepositoryFromExistingRepository.Config :=
  {| Earlier.GithubRepositoryFromExistingRepository.team := Sample.tfCdkTeam;
     Earlier.GithubRepositoryFromExistingRepository.webhookUrl :=
       "https://hooks.example/T0/B0";
     Earlier.GithubRepositoryFromExistingRepository.provider := Sample.github;
     Earlier.GithubRepositoryFromExistingRepository.repositoryName :=
       "cdktf-provider-aws";
     Earlier.GithubRepositoryFromExistingRepository.protectMain := protectMain;
     Earlier.GithubRepositoryFromExistingRepository.protectMainChecks :=
       None |}.

Definition initialExisting (protectMain : option bool)
    : Initial.GithubRepositoryFromExistingRepository.Config :=
  {| Initial.GithubRepositoryFromExistingRepository.team := Sample.tfCdkTeam;
     Initial.GithubRepositoryFromExistingRepository.webhookUrl :=
       "https://hooks.example/T0/B0";
     Initial.GithubRepositoryFromExistingRepository.provider := Sample.github;
     Initial.GithubRepositoryFromExistingRepository.repositoryName :=
       "cdktf-provider-aws";
     Initial.GithubRepositoryFromExistingRepository.protectMain := protectMain;
     Initial.GithubRepositoryFromExistingRepository.protectMainChecks :=
       None |}.

(** The same repository resource declared with other settings. *)
Definition resettled (repositoryName : string) : RepositoryHandle :=
  OfRepository (Sample.stack ++ [repositoryName; "repo"])%list
    {| Repository.name := repositoryName;
       Repository.description := "Prebuilt provider";
       Repository.archiveOnDestroy := Some true;
       Repository.visibility := "public";
       Repository.homepageUrl := "https://cdk.tf";
       Repository.hasIssues := false;
       Repository.hasWiki := false;
       Repository.autoInit := true;
       Repository.hasProjects := false;
       Repository.deleteBranchOnMerge := true;
       Repository.allowAutoMerge := Some true;
       Repository.allowUpdateBranch := Some true;
       Repository.squashMergeCommitMessage := None;
       Repository.squashMergeCommitTitle := None;
       Repository.vulnerabilityAlerts := None;
       Repository.topics := ["cdktf"];
       Repository.provider := Sample.github |}.
End Case.

(** * Properties *)

(** ** Strings *)

Lemma append_assoc (a b c : string) : (a ++ b) ++ c = a ++ (b ++ c).
Proof.
  induction a as [|ch a IH]; simpl; [reflexivity | now rewrite IH].
Qed.

Lemma search_unfold (pattern s : string) :
  search pattern s =
  if String.prefix pattern s then Some pattern
  else match s with
       | EmptyString => None
       | String _ rest => search pattern rest
       end.
Proof.
  destruct s; reflexivity.
Qed.

Lemma substring_search (pattern : string) :
  forall (s : string) (n : nat),
    substring n (String.length pattern) s = pattern ->
    search pattern s = Some pattern.
Proof.
  induction s as [|ch s IH]; intros n H; rewrite search_unfold.
  - assert (pattern = "") as ->.
    { destruct n, pattern; simpl in H; congruence. }
    reflexivity.
  - destruct n as [|n].
    + apply prefix_correct in H. now rewrite H.
    + destruct (String.prefix pattern (String ch s)); [reflexivity|].
      apply IH with (n := n). destruct pattern; simpl in H |- *; exact H.
Qed.

(** A string that ends with the pattern contains it. *)
Lemma endsWith_search (s pattern : string) :
  endsWith s pattern = true -> search pattern s = Some pattern.
Proof.
  unfold endsWith.
  destruct (Nat.ltb (String.length s) (String.length pattern));
    [discriminate|].
  intro H. apply String.eqb_eq in H.
  eapply substring_search; exact H.
Qed.

Lemma length_append (a b : string) :
  String.length (a ++ b) = String.length a + String.length b.
Proof.
  induction a as [|ch a IH]; simpl; [reflexivity | now rewrite IH].
Qed.

Lemma substring_whole (p : string) : substring 0 (String.length p) p = p.
Proof.
  induction p as [|ch p IH]; simpl; [reflexivity | now rewrite IH].
Qed.

Lemma substring_after (pre p : string) :
  substring (String.length pre) (String.length p) (pre ++ p) = p.
Proof.
  induction pre as [|ch pre IH]; simpl; [apply substring_whole | exact IH].
Qed.

Lemma substring_split (s : string) :
  forall n m : nat,
    n + m = String.length s -> s = substring 0 n s ++ substring n m s.
Proof.
  induction s as [|ch s IH]; intros n m H; simpl in H.
  - destruct n, m; try discriminate. reflexivity.
  - destruct n as [|n]; simpl.
    + simpl in H. subst m. simpl. now rewrite substring_whole.
    + f_equal. apply IH. lia.
Qed.

(** [endsWith] holds exactly of the strings that have the suffix. *)
Lemma endsWith_spec (s p : string) :
  endsWith s p = true <-> exists pre, s = pre ++ p.
Proof.
  unfold endsWith. split.
  - destruct (Nat.ltb_spec (String.length s) (String.length p)) as [|Hle];
      [discriminate|].
    intro H. apply String.eqb_eq in H.
    exists (substring 0 (String.length s - String.length p) s).
    rewrite <- H at 2.
    apply substring_split. lia.
  - intros [pre ->]. rewrite length_append.
    destruct (Nat.ltb_spec (String.length pre + String.length p)
                (String.length p)) as [|_]; [lia|].
    replace (String.length pre + String.length p - String.length p)
      with (String.length pre) by lia.
    rewrite substring_after. apply String.eqb_refl.
Qed.

Lemma prefix_spec (p : string) :
  forall s, String.prefix p s = true <-> exists rest, s = p ++ rest.
Proof.
  induction p as [|ch p IH]; intro s.
  - split; [exists s; reflexivity | destruct s; reflexivity].
  - destruct s as [|ch' s]; simpl.
    + split; [discriminate | intros [rest H]; discriminate].
    + destruct (ascii_dec ch ch') as [->|Hne].
      * split.
        -- intro H. apply IH in H. destruct H as [rest ->]. now exists rest.
        -- intros [rest H]. apply IH. exists rest. congruence.
      * split; [discriminate | intros [rest H]; congruence].
Qed.

(** [search] finds the pattern exactly in the strings that contain it. *)
Lemma search_spec (p s : string) :
  search p s = Some p <-> exists before after, s = before ++ p ++ after.
Proof.
  induction s as [|ch s IH]; rewrite search_unfold;
    destruct (String.prefix p _) eqn:E.
  - split; [|reflexivity]. intros _. apply prefix_spec in E.
    destruct E as [rest E]. exists "", rest. exact E.
  - split; [discriminate|]. intros (b & a & H).
    destruct b; [|discriminate]. simpl in H.
    assert (String.prefix p "" = true) by (apply prefix_spec; eauto).
    congruence.
  - split; [|reflexivity]. intros _. apply prefix_spec in E.
    destruct E as [rest E]. exists "", rest. exact E.
  - rewrite IH. split; intros (b & a & H).
    + exists (String ch b), a. simpl. now rewrite H.
    + destruct b as [|c b]; simpl in H.
      * assert (String.prefix p (String ch s) = true)
          by (apply prefix_spec; eauto).
        congruence.
      * injection H as _ H. eauto.
Qed.

(** ** The graph monad *)

Lemma update_last {A : Type} (f : A -> A) (g : list A) (x : A) (l : list A) :
  update (length g) f (g ++ x :: l)%list = (g ++ f x :: l)%list.
Proof.
  induction g as [|y g IH]; simpl; [reflexivity | now rewrite IH].
Qed.

Lemma Appends_spec {A : Type} (b : Build A) :
  Appends b -> forall g, b g = (result b, (g ++ declared b)%list).
Proof.
  intros (a & out & H) g. unfold result, declared.
  rewrite (H []), (H g). reflexivity.
Qed.

Lemma Appends_emitted {A : Type} (b : Build A) :
  Appends b -> forall g, emitted b g = declared b.
Proof.
  intros H g. unfold emitted. rewrite (Appends_spec H g). simpl.
  rewrite skipn_app, Nat.sub_diag, skipn_all. reflexivity.
Qed.

Lemma Appends_ret {A : Type} (a : A) : Appends (ret a).
Proof.
  exists a, []. intro g. unfold ret. now rewrite app_nil_r.
Qed.

Lemma Appends_bind {A B : Type} (m : Build A) (k : A -> Build B) :
  Appends m -> (forall a, Appends (k a)) -> Appends (bind m k).
Proof.
  intros (a & out & Hm) Hk. destruct (Hk a) as (b & out' & Hka).
  exists b, (out ++ out')%list. intro g. unfold bind.
  rewrite Hm, Hka, app_assoc. reflexivity.
Qed.

Lemma Appends_new (scope : Path) (id_ : string) (r : Resource)
    {B : Type} (k : Build B) :
  Appends k -> Appends (new_ scope id_ r ;; k).
Proof.
  intros (b & out & Hk).
  exists b, ({| path := scope ++ [id_]; resource := r; oldId := false |}
             :: out)%list.
  intro g. unfold bind, new_. rewrite Hk, <- app_assoc. reflexivity.
Qed.

Lemma Appends_new_setOldId (scope : Path) (id_ : string) (r : Resource) :
  Appends (h <- new_ scope id_ r ;; setOldId h).
Proof.
  exists tt, [{| path := scope ++ [id_]; resource := r; oldId := true |}]%list.
  intro g. unfold bind, new_, setOldId. rewrite update_last. reflexivity.
Qed.

Lemma Appends_new_setOldId_then (scope : Path) (id_ : string) (r : Resource)
    {B : Type} (k : Build B) :
  Appends k -> Appends (h <- new_ scope id_ r ;; setOldId h ;; k).
Proof.
  intros (b & out & Hk).
  exists b, ({| path := scope ++ [id_]; resource := r; oldId := true |}
             :: out)%list.
  intro g. unfold bind, new_, setOldId.
  rewrite update_last, Hk, <- app_assoc. reflexivity.
Qed.

Lemma Appends_if {A : Type} (c : bool) (t e : Build A) :
  Appends t -> Appends e -> Appends (if c then t else e).
Proof.
  destruct c; trivial.
Qed.

Ltac appends_step :=
  first
    [ apply Appends_ret
    | apply Appends_new_setOldId_then
    | apply Appends_new_setOldId
    | apply Appends_new
    | apply Appends_if
    | apply Appends_bind; [|intro] ].

Ltac appends := cbv zeta; repeat appends_step.

Lemma Appends_Earlier_RepositorySetup scope name config :
  Appends (Earlier.RepositorySetup.constructor scope name config).
Proof.
  unfold Earlier.RepositorySetup.constructor. appends.
Qed.

Lemma Appends_Initial_RepositorySetup scope name config :
  Appends (Initial.RepositorySetup.constructor scope name config).
Proof.
  unfold Initial.RepositorySetup.constructor. appends.
Qed.

Lemma Appends_Later_RepositorySetup scope name config :
  Appends (Later.RepositorySetup.constructor scope name config).
Proof.
  unfold Later.RepositorySetup.constructor. appends.
Qed.

Ltac appends_with lem :=
  cbv zeta; repeat first [ apply lem | appends_step ].

Lemma Appends_Initial_GithubRepository scope name config :
  Appends (Initial.GithubRepository.constructor scope name config).
Proof.
  unfold Initial.GithubRepository.constructor.
  appends_with Appends_Initial_RepositorySetup.
Qed.

Lemma Appends_Earlier_GithubRepository scope name config :
  Appends (Earlier.GithubRepository.constructor scope name config).
Proof.
  unfold Earlier.GithubRepository.constructor.
  appends_with Appends_Earlier_RepositorySetup.
Qed.

Lemma Appends_Later_GithubRepository scope name config :
  Appends (Later.GithubRepository.constructor scope name config).
Proof.
  unfold Later.GithubRepository.constructor.
  appends_with Appends_Later_RepositorySetup.
Qed.

Lemma Appends_Initial_FromExisting scope name config :
  Appends
    (Initial.GithubRepositoryFromExistingRepository.constructor
       scope name config).
Proof.
  unfold Initial.GithubRepositoryFromExistingRepository.constructor.
  appends_with Appends_Initial_RepositorySetup.
Qed.

Lemma Appends_Earlier_FromExisting scope name config :
  Appends
    (Earlier.GithubRepositoryFromExistingRepository.constructor
       scope name config).
Proof.
  unfold Earlier.GithubRepositoryFromExistingRepository.constructor.
  appends_with Appends_Earlier_RepositorySetup.
Qed.

Lemma Appends_Later_FromExisting scope name config :
  Appends
    (Later.GithubRepositoryFromExistingRepository.constructor
       scope name config).
Proof.
  unfold Later.GithubRepositoryFromExistingRepository.constructor.
  appends_with Appends_Later_RepositorySetup.
Qed.

Lemma Appends_Earlier_addSecret this name :
  Appends (Earlier.GithubRepository.addSecret this name).
Proof.
  unfold Earlier.GithubRepository.addSecret,
    SecretFromVariable.constructor, SecretFromVariable.for_.
  appends.
Qed.

Lemma Appends_Later_addSecret this name :
  Appends (Later.GithubRepository.addSecret this name).
Proof.
  unfold Later.GithubRepository.addSecret,
    SecretFromVariable.constructor, SecretFromVariable.for_.
  appends.
Qed.

(** ** The CODEOWNERS count *)

Lemma codeownersCount_render (repositoryName : string) :
  interpolation (Earlier.codeownersCount repositoryName)
  = "${regex(" ++ dq ++ "-go" ++ dq ++ ", " ++ repositoryName
    ++ ") == " ++ dq ++ "-go" ++ dq ++ " ? 1 : 0}".
Proof.
  unfold interpolation. cbn.
  repeat (rewrite ?append_assoc; cbn). reflexivity.
Qed.

(** The text the source writes into [count] is the interpolation of
    [codeownersCount]. *)
Lemma codeownersCount_text (g : Graph) scope name config :
  map RepositoryFile.count
    (repositoryFiles
       (emitted (Earlier.RepositorySetup.constructor scope name config) g))
  = [ interpolation
        (Earlier.codeownersCount
           (RepositoryHandle.name (Earlier.RepositorySetup.repository config))) ].
Proof.
  rewrite Appends_emitted by apply Appends_Earlier_RepositorySetup.
  rewrite codeownersCount_render.
  destruct config as [tm url pv pm pmc repo].
  destruct pm as [[|]|]; reflexivity.
Qed.

Lemma search_Some (pattern s m : string) :
  search pattern s = Some m -> m = pattern.
Proof.
  induction s as [|ch s IH]; rewrite search_unfold;
    destruct (String.prefix pattern _); congruence || auto.
Qed.

(** Had the source spliced a bare reference, the count would be 1 when the
    name it resolves to contains [-go] anywhere, and the runtime would raise
    otherwise. *)
Lemma codeownersCount_reference (env : Env) (reference value : string) :
  isReference reference = true ->
  env reference = Some value ->
  eval env (Earlier.codeownersCount reference)
  = match search "-go" value with
    | Some _ => Some (VNumber 1)
    | None => None
    end.
Proof.
  intros Hr Hv. unfold Earlier.codeownersCount.
  cbn [eval]. rewrite Hr, Hv.
  destruct (search "-go" value) as [m|] eqn:E.
  - apply search_Some in E. subst m. reflexivity.
  - reflexivity.
Qed.

(** With a bare reference the count would be 1 for every name, ending in
    [-go] or not, in which [-go] occurs. *)
Lemma codeownersCount_reference_one (env : Env) (reference value : string) :
  isReference reference = true ->
  env reference = Some value ->
  eval env (Earlier.codeownersCount reference) = Some (VNumber 1)
  <-> exists before after, value = before ++ "-go" ++ after.
Proof.
  intros Hr Hv.
  rewrite (codeownersCount_reference env reference Hr Hv), <- search_spec.
  destruct (search "-go" value) as [m|] eqn:E.
  - apply search_Some in E. subst m. split; reflexivity.
  - split; discriminate.
Qed.

(** The name attribute of a handle is a nested interpolation, not a
    reference. *)
Lemma name_not_reference (h : RepositoryHandle) :
  isReference (RepositoryHandle.name h) = false.
Proof.
  reflexivity.
Qed.

(** With the name attribute of a handle spliced in, the count has no value,
    whatever the references resolve to. *)
Lemma codeownersCount_no_value (env : Env) (h : RepositoryHandle) :
  eval env (Earlier.codeownersCount (RepositoryHandle.name h)) = None.
Proof.
  reflexivity.
Qed.

(** The one CODEOWNERS declaration of every construction, with its fixed
    file name and content. *)
Lemma codeowners_declaration (g : Graph) scope name config :
  exists c,
    repositoryFiles
      (emitted (Earlier.RepositorySetup.constructor scope name config) g)
    = [c]
    /\ RepositoryFile.file c = ".github/CODEOWNERS"
    /\ RepositoryFile.content c
       = "# These owners will be the default owners for everything in "
         ++ lf ++ "# the repo. Unless a later match takes precedence, "
         ++ lf ++ "# they will be requested for review when someone opens a "
         ++ lf ++ "# pull request."
         ++ lf ++ "*       @cdktf/tf-cdk-team".
Proof.
  rewrite Appends_emitted by apply Appends_Earlier_RepositorySetup.
  destruct config as [tm url pv pm pmc repo].
  destruct pm as [[|]|]; eexists; repeat split.
Qed.

(** C1 (fails on the code).  The CODEOWNERS count is meant to be 1 for the Go
    repositories, whose names end in [-go], and 0 for every other one.  The
    source splices the name attribute of the repository handle into the count
    template; the attribute is itself an interpolation of the handle's
    address, so the count reads [regex("-go", ${...}) == "-go" ? 1 : 0] with
    an interpolation nested where a reference belongs, and has no value:
    neither 1 nor 0, whatever the repository is called.  So it is for the
    repository that [GithubRepository] declares under the name
    [cdktf-provider-aws-go]. *)
Theorem codeowners_count_has_no_value :
  (forall (g : Graph) (scope : Path) (name : string)
          (config : Earlier.RepositorySetup.Config) (env : Env),
      let handle := Earlier.RepositorySetup.repository config in
      map RepositoryFile.count
        (repositoryFiles
           (emitted (Earlier.RepositorySetup.constructor scope name config) g))
      = [ "${regex(" ++ dq ++ "-go" ++ dq ++ ", "
          ++ ("${" ++ RepositoryHandle.address handle ++ ".name}")
          ++ ") == " ++ dq ++ "-go" ++ dq ++ " ? 1 : 0}" ]
      /\ map RepositoryFile.count
           (repositoryFiles
              (emitted (Earlier.RepositorySetup.constructor scope name config)
                 g))
         = [ interpolation
               (Earlier.codeownersCount (RepositoryHandle.name handle)) ]
      /\ eval env (Earlier.codeownersCount (RepositoryHandle.name handle))
         = None)
  /\ (let build :=
        Earlier.GithubRepository.constructor Sample.stack
          "cdktf-provider-aws-go" (Sample.earlierConfig None) in
      let handle := Earlier.GithubRepository.resource (fst (build Sample.busy))
      in
      endsWith "cdktf-provider-aws-go" "-go" = true
      /\ RepositoryHandle.configuredName handle = "cdktf-provider-aws-go"
      /\ map RepositoryFile.count (repositoryFiles (emitted build Sample.busy))
         = [ interpolation
               (Earlier.codeownersCount (RepositoryHandle.name handle)) ]
      /\ forall env : Env,
           eval env (Earlier.codeownersCount (RepositoryHandle.name handle))
           = None).
Proof.
  split.
  - intros g scope name config env handle. subst handle.
    split; [|split].
    + rewrite Appends_emitted by apply Appends_Earlier_RepositorySetup.
      destruct config as [tm url pv pm pmc repo].
      destruct pm as [[|]|]; reflexivity.
    + apply codeownersCount_text.
    + apply codeownersCount_no_value.
  - cbv zeta. split; [reflexivity|]. split; [reflexivity|].
    split.
    + rewrite Appends_emitted by apply Appends_Earlier_GithubRepository.
      rewrite codeownersCount_render. reflexivity.
    + intro env. apply codeownersCount_no_value.
Qed.

(** ** RepositorySetup *)

Ltac emitted_Earlier :=
  rewrite Appends_emitted by apply Appends_Earlier_RepositorySetup.
Ltac emitted_Later :=
  rewrite Appends_emitted by apply Appends_Later_RepositorySetup.
Ltac emitted_Initial :=
  rewrite Appends_emitted by apply Appends_Initial_RepositorySetup.

(** C2.  Later revision: with [webhookUrl] unset or empty no webhook is
    declared, and the construction goes through as with any other config;
    with a truthy [webhookUrl] exactly one webhook is declared, posting JSON
    to that URL and subscribed to the [issues] event only.  Earlier revision:
    the webhook is declared whatever the URL is. *)
Theorem webhook_declarations (g : Graph) (scope : Path) (name : string) :
  (forall config : Later.RepositorySetup.Config,
      Later.RepositorySetup.webhookUrl config = None
      \/ Later.RepositorySetup.webhookUrl config = Some "" ->
      repositoryWebhooks
        (emitted (Later.RepositorySetup.constructor scope name config) g)
      = [])
  /\ (forall (config : Later.RepositorySetup.Config) (url : string),
         Later.RepositorySetup.webhookUrl config = Some url ->
         url <> "" ->
         repositoryWebhooks
           (emitted (Later.RepositorySetup.constructor scope name config) g)
         = [ {| RepositoryWebhook.repository :=
                  RepositoryHandle.name
                    (Later.RepositorySetup.repository config);
                RepositoryWebhook.configuration :=
                  {| RepositoryWebhook.url := url;
                     RepositoryWebhook.contentType := "json" |};
                RepositoryWebhook.events := ["issues"];
                RepositoryWebhook.provider :=
                  Later.RepositorySetup.provider config |} ])
  /\ (forall config : Earlier.RepositorySetup.Config,
         repositoryWebhooks
           (emitted (Earlier.RepositorySetup.constructor scope name config) g)
         = [ {| RepositoryWebhook.repository :=
                  RepositoryHandle.name
                    (Earlier.RepositorySetup.repository config);
                RepositoryWebhook.configuration :=
                  {| RepositoryWebhook.url :=
                       Earlier.RepositorySetup.webhookUrl config;
                     RepositoryWebhook.contentType := "json" |};
                RepositoryWebhook.events := ["issues"];
                RepositoryWebhook.provider :=
                  Earlier.RepositorySetup.provider config |} ]).
Proof.
  split; [|split].
  - intros [tm url pv pm pmc repo] H. emitted_Later. cbn in H.
    destruct H as [-> | ->]; destruct pm as [[|]|]; reflexivity.
  - intros [tm u pv pm pmc repo] url H Hne. emitted_Later. cbn in H.
    subst u. apply String.eqb_neq in Hne.
    unfold Later.RepositorySetup.constructor, declared.
    cbn [Later.RepositorySetup.webhookUrl truthy].
    rewrite Hne. destruct pm as [[|]|]; reflexivity.
  - intros [tm url pv pm pmc repo]. emitted_Earlier.
    destruct pm as [[|]|]; reflexivity.
Qed.

Lemma webhook_declarations_witness :
  repositoryWebhooks
    (emitted
       (Later.RepositorySetup.constructor Sample.stack "repository-setup"
          (Sample.laterSetup None (Some "")))
       Sample.busy)
  = []
  /\ map RepositoryWebhook.events
       (repositoryWebhooks
          (emitted
             (Later.RepositorySetup.constructor Sample.stack
                "repository-setup"
                (Sample.laterSetup None (Some "https://hooks.example/T0/B0")))
             Sample.busy))
     = [["issues"]].
Proof.
  destruct (webhook_declarations Sample.busy Sample.stack "repository-setup")
    as [Hfalsy [Htruthy _]].
  split.
  - apply Hfalsy. right. reflexivity.
  - rewrite (Htruthy _ "https://hooks.example/T0/B0").
    + reflexivity.
    + reflexivity.
    + discriminate.
Defined.

(** C3.  With [protectMain] true and no [protectMainChecks], the branch
    protection declared is on pattern [main], enforced for admins, without
    deletions and force pushes, with strict status checks: [build] in the
    earlier revision, [build] and [license/cla] in the later one, which also
    asks for one approving review, not from a code owner, and for resolved
    conversations. *)
Theorem branch_protection_defaults (g : Graph) (scope : Path) (name : string) :
  (forall config : Earlier.RepositorySetup.Config,
      Earlier.RepositorySetup.protectMain config = Some true ->
      Earlier.RepositorySetup.protectMainChecks config = None ->
      branchProtections
        (emitted (Earlier.RepositorySetup.constructor scope name config) g)
      = [ {| BranchProtection.pattern := "main";
             BranchProtection.repositoryId :=
               RepositoryHandle.name
                 (Earlier.RepositorySetup.repository config);
             BranchProtection.enforceAdmins := true;
             BranchProtection.allowsDeletions := false;
             BranchProtection.allowsForcePushes := false;
             BranchProtection.requiredPullRequestReviews := None;
             BranchProtection.requireConversationResolution := None;
             BranchProtection.requiredStatusChecks :=
               [ {| BranchProtection.strict := true;
                    BranchProtection.contexts := ["build"] |} ];
             BranchProtection.provider :=
               Earlier.RepositorySetup.provider config |} ])
  /\ (forall config : Later.RepositorySetup.Config,
         Later.RepositorySetup.protectMain config = Some true ->
         Later.RepositorySetup.protectMainChecks config = None ->
         branchProtections
           (emitted (Later.RepositorySetup.constructor scope name config) g)
         = [ {| BranchProtection.pattern := "main";
                BranchProtection.repositoryId :=
                  RepositoryHandle.name
                    (Later.RepositorySetup.repository config);
                BranchProtection.enforceAdmins := true;
                BranchProtection.allowsDeletions := false;
                BranchProtection.allowsForcePushes := false;
                BranchProtection.requiredPullRequestReviews :=
                  Some
                    [ {| BranchProtection.requiredApprovingReviewCount := 1;
                         BranchProtection.requireCodeOwnerReviews := false;
                         BranchProtection.dismissStaleReviews := false |} ];
                BranchProtection.requireConversationResolution := Some true;
                BranchProtection.requiredStatusChecks :=
                  [ {| BranchProtection.strict := true;
                       BranchProtection.contexts :=
                         ["build"; "license/cla"] |} ];
                BranchProtection.provider :=
                  Later.RepositorySetup.provider config |} ]).
Proof.
  split.
  - intros [tm url pv pm pmc repo] Hpm Hpmc. emitted_Earlier.
    cbn in Hpm, Hpmc. subst pm pmc. reflexivity.
  - intros [tm url pv pm pmc repo] Hpm Hpmc. emitted_Later.
    cbn in Hpm, Hpmc. subst pm pmc.
    unfold Later.RepositorySetup.constructor, declared.
    cbn [Later.RepositorySetup.webhookUrl].
    destruct (truthy url); reflexivity.
Qed.

Lemma branch_protection_defaults_witness :
  map BranchProtection.requiredStatusChecks
    (branchProtections
       (emitted
          (Earlier.RepositorySetup.constructor Sample.stack "repository-setup"
             (Sample.earlierSetup (Some true) "cdktf-provider-aws"))
          Sample.busy))
  = [[ {| BranchProtection.strict := true;
          BranchProtection.contexts := ["build"] |} ]]
  /\ map BranchProtection.requiredStatusChecks
       (branchProtections
          (emitted
             (Later.RepositorySetup.constructor Sample.stack
                "repository-setup" (Sample.laterSetup (Some true) None))
             Sample.busy))
     = [[ {| BranchProtection.strict := true;
             BranchProtection.contexts := ["build"; "license/cla"] |} ]].
Proof.
  destruct (branch_protection_defaults Sample.busy Sample.stack
              "repository-setup") as [HE HL].
  split.
  - rewrite HE; reflexivity.
  - rewrite HL; reflexivity.
Defined.

(** C4.  With [protectMain] false or omitted no branch protection is
    declared, in any revision; the rest of the bundle is declared as
    usual. *)
Theorem no_branch_protection (g : Graph) (scope : Path) (name : string) :
  (forall config : Earlier.RepositorySetup.Config,
      Earlier.RepositorySetup.protectMain config = Some false
      \/ Earlier.RepositorySetup.protectMain config = None ->
      branchProtections
        (emitted (Earlier.RepositorySetup.constructor scope name config) g)
      = []
      /\ map kindOf
           (emitted (Earlier.RepositorySetup.constructor scope name config) g)
         = [ KIssueLabel; KTeamRepository; KRepositoryWebhook;
             KRepositoryFile ])
  /\ (forall config : Later.RepositorySetup.Config,
         Later.RepositorySetup.protectMain config = Some false
         \/ Later.RepositorySetup.protectMain config = None ->
         branchProtections
           (emitted (Later.RepositorySetup.constructor scope name config) g)
         = []
         /\ firstn 4
              (map kindOf
                 (emitted
                    (Later.RepositorySetup.constructor scope name config) g))
            = [ KIssueLabel; KIssueLabel; KIssueLabel; KTeamRepository ])
  /\ (forall config : Initial.RepositorySetup.Config,
         Initial.RepositorySetup.protectMain config = Some false
         \/ Initial.RepositorySetup.protectMain config = None ->
         branchProtections
           (emitted (Initial.RepositorySetup.constructor scope name config) g)
         = []).
Proof.
  split; [|split].
  - intros [tm url pv pm pmc repo] H. emitted_Earlier. cbn in H.
    destruct H as [-> | ->]; split; reflexivity.
  - intros [tm url pv pm pmc repo] H. emitted_Later. cbn in H.
    unfold Later.RepositorySetup.constructor, declared.
    cbn [Later.RepositorySetup.webhookUrl].
    destruct H as [-> | ->]; destruct (truthy url); split; reflexivity.
  - intros [tm url pv pm pmc repo] H. emitted_Initial. cbn in H.
    destruct H as [-> | ->]; reflexivity.
Qed.

Lemma no_branch_protection_witness :
  branchProtections
    (emitted
       (Earlier.RepositorySetup.constructor Sample.stack "repository-setup"
          (Sample.earlierSetup (Some false) "cdktf-provider-aws"))
       Sample.busy)
  = []
  /\ branchProtections
       (emitted
          (Later.RepositorySetup.constructor Sample.stack "repository-setup"
             (Sample.laterSetup None None))
          Sample.busy)
     = []
  /\ branchProtections
       (emitted
          (Initial.RepositorySetup.constructor Sample.stack "repository-setup"
             (Sample.initialSetup None))
          Sample.busy)
     = [].
Proof.
  destruct (no_branch_protection Sample.busy Sample.stack "repository-setup")
    as [HE [HL HI]].
  split; [|split].
  - apply HE. left. reflexivity.
  - apply HL. right. reflexivity.
  - apply HI. right. reflexivity.
Defined.

(** C5.  Every declaration of the bundle refers to the repository by the
    [name] attribute of the handle in the config: the labels, the branch
    protection, the team binding, the webhook and the CODEOWNERS file. *)
Theorem bundle_refers_to_repository (g : Graph) (scope : Path) (name : string) :
  (forall config : Earlier.RepositorySetup.Config,
      Forall
        (fun d =>
           repositoryOf d
           = Some (RepositoryHandle.name
                     (Earlier.RepositorySetup.repository config)))
        (emitted (Earlier.RepositorySetup.constructor scope name config) g))
  /\ (forall config : Later.RepositorySetup.Config,
         Forall
           (fun d =>
              repositoryOf d
              = Some (RepositoryHandle.name
                        (Later.RepositorySetup.repository config)))
           (emitted (Later.RepositorySetup.constructor scope name config) g)).
Proof.
  split.
  - intros [tm url pv pm pmc repo]. emitted_Earlier.
    destruct pm as [[|]|]; repeat constructor.
  - intros [tm url pv pm pmc repo]. emitted_Later.
    unfold Later.RepositorySetup.constructor, declared.
    cbn [Later.RepositorySetup.webhookUrl Later.RepositorySetup.protectMain].
    destruct pm as [[|]|]; destruct (truthy url); repeat constructor.
Qed.

(** C8.  The bundle is declared in a fixed order: the issue labels (the
    [automerge] label; in the later revision also [no-auto-close] and
    [auto-approve]), the branch protection when [protectMain] is true, the
    team binding giving [admin] to [team.id] on the repository, the webhook
    (in the later revision only for a truthy URL) and, in the earlier
    revision, the CODEOWNERS file. *)
Theorem bundle_order (g : Graph) (scope : Path) (name : string) :
  (forall config : Earlier.RepositorySetup.Config,
      let out :=
        emitted (Earlier.RepositorySetup.constructor scope name config) g in
      map kindOf out
      = ([KIssueLabel]
         ++ (if orDefault false (Earlier.RepositorySetup.protectMain config)
             then [KBranchProtection] else [])
         ++ [KTeamRepository; KRepositoryWebhook; KRepositoryFile])%list
      /\ map IssueLabel.name (issueLabels out) = ["automerge"]
      /\ teamRepositories out
         = [ {| TeamRepository.repository :=
                  RepositoryHandle.name
                    (Earlier.RepositorySetup.repository config);
                TeamRepository.teamId :=
                  id (Earlier.RepositorySetup.team config);
                TeamRepository.permission := "admin";
                TeamRepository.provider :=
                  Earlier.RepositorySetup.provider config |} ])
  /\ (forall config : Later.RepositorySetup.Config,
         let out :=
           emitted (Later.RepositorySetup.constructor scope name config) g in
         map kindOf out
         = ([KIssueLabel; KIssueLabel; KIssueLabel]
            ++ (if orDefault false (Later.RepositorySetup.protectMain config)
                then [KBranchProtection] else [])
            ++ [KTeamRepository]
            ++ (if truthy (Later.RepositorySetup.webhookUrl config)
                then [KRepositoryWebhook] else []))%list
         /\ map IssueLabel.name (issueLabels out)
            = ["automerge"; "no-auto-close"; "auto-approve"]
         /\ teamRepositories out
            = [ {| TeamRepository.repository :=
                     RepositoryHandle.name
                       (Later.RepositorySetup.repository config);
                   TeamRepository.teamId :=
                     id (Later.RepositorySetup.team config);
                   TeamRepository.permission := "admin";
                   TeamRepository.provider :=
                     Later.RepositorySetup.provider config |} ]).
Proof.
  split.
  - intros [tm url pv pm pmc repo] out. subst out. emitted_Earlier.
    destruct pm as [[|]|]; repeat split.
  - intros [tm url pv pm pmc repo] out. subst out. emitted_Later.
    unfold Later.RepositorySetup.constructor, declared.
    cbn [Later.RepositorySetup.webhookUrl Later.RepositorySetup.protectMain].
    destruct pm as [[|]|]; destruct (truthy url); repeat split.
Qed.

(** ** GithubRepository *)

Ltac emitted_repository :=
  rewrite Appends_emitted
    by first [ apply Appends_Earlier_GithubRepository
             | apply Appends_Later_GithubRepository
             | apply Appends_Initial_GithubRepository ].

(** C6.  Without [topics] the repository is declared with the default
    topics, [cdktf], [terraform], [terraform-cdk], [cdk], [provider] and
    [pre-built-provider] in this order; with [topics] it is declared with
    the list given, as it is. *)
Theorem repository_topics (g : Graph) (scope : Path) (name : string) :
  (forall config : Earlier.RepositoryConfig,
      map Repository.topics
        (repositories
           (emitted (Earlier.GithubRepository.constructor scope name config) g))
      = [ match Earlier.topics config with
          | None =>
              [ "cdktf"; "terraform"; "terraform-cdk"; "cdk"; "provider";
                "pre-built-provider" ]
          | Some given => given
          end ])
  /\ (forall config : Later.RepositoryConfig,
         map Repository.topics
           (repositories
              (emitted (Later.GithubRepository.constructor scope name config)
                 g))
         = [ match Later.topics config with
             | None =>
                 [ "cdktf"; "terraform"; "terraform-cdk"; "cdk"; "provider";
                   "pre-built-provider" ]
             | Some given => given
             end ]).
Proof.
  split; intro config; emitted_repository.
  - destruct config as [ds [tp|] tm [[|]|] pmc url pv]; reflexivity.
  - destruct config as [ds [tp|] tm pm pmc url pv];
      unfold Later.GithubRepository.constructor,
        Later.RepositorySetup.constructor, declared;
      cbn [Later.spread Later.webhookUrl Later.protectMain
           Later.RepositorySetup.webhookUrl
           Later.RepositorySetup.protectMain];
      destruct pm as [[|]|]; destruct (truthy url); reflexivity.
Qed.

(** C7.  The repository declared is public, with homepage [https://cdk.tf],
    without wiki and projects, auto-initialised, with branches deleted on
    merge.  Earlier revision: issues are enabled.  Later revision: it is
    archived on destroy, allows auto-merge and branch updates, takes squash
    commit message and title from the pull request body and title, has
    vulnerability alerts, and has issues exactly when its name does not end
    in [-go]. *)
Theorem repository_baseline (g : Graph) (scope : Path) (name : string) :
  (forall config : Earlier.RepositoryConfig,
      exists c,
        repositories
          (emitted (Earlier.GithubRepository.constructor scope name config) g)
        = [c]
        /\ Repository.name c = name
        /\ Repository.visibility c = "public"
        /\ Repository.homepageUrl c = "https://cdk.tf"
        /\ Repository.hasWiki c = false
        /\ Repository.autoInit c = true
        /\ Repository.hasProjects c = false
        /\ Repository.deleteBranchOnMerge c = true
        /\ Repository.hasIssues c = true)
  /\ (forall config : Later.RepositoryConfig,
         exists c,
           repositories
             (emitted (Later.GithubRepository.constructor scope name config) g)
           = [c]
           /\ Repository.name c = name
           /\ Repository.visibility c = "public"
           /\ Repository.homepageUrl c = "https://cdk.tf"
           /\ Repository.hasWiki c = false
           /\ Repository.autoInit c = true
           /\ Repository.hasProjects c = false
           /\ Repository.deleteBranchOnMerge c = true
           /\ Repository.archiveOnDestroy c = Some true
           /\ Repository.allowAutoMerge c = Some true
           /\ Repository.allowUpdateBranch c = Some true
           /\ Repository.squashMergeCommitMessage c = Some "PR_BODY"
           /\ Repository.squashMergeCommitTitle c = Some "PR_TITLE"
           /\ Repository.vulnerabilityAlerts c = Some true
           /\ Repository.hasIssues c = negb (endsWith name "-go")).
Proof.
  split; intro config; emitted_repository.
  - destruct config as [ds tp tm [[|]|] pmc url pv];
      eexists; repeat split.
  - destruct config as [ds tp tm pm pmc url pv];
      unfold Later.GithubRepository.constructor,
        Later.RepositorySetup.constructor, declared;
      cbn [Later.spread Later.webhookUrl Later.protectMain
           Later.RepositorySetup.webhookUrl
           Later.RepositorySetup.protectMain];
      destruct pm as [[|]|]; destruct (truthy url);
      eexists; repeat split.
Qed.

Example endsWith_go :
  endsWith "cdktf-provider-aws-go" "-go" = true
  /\ endsWith "cdktf-provider-google" "-go" = false
  /\ endsWith "go" "-go" = false
  /\ endsWith "-go" "-go" = true.
Proof.
  repeat split.
Qed.

(** The instance a construction returns: its [resource] is the repository it
    declared, its [provider] the one of the config. *)
Lemma GithubRepository_instance (g : Graph) (scope : Path) (name : string) :
  (forall config : Earlier.RepositoryConfig,
      let build := Earlier.GithubRepository.constructor scope name config in
      exists c,
        repositories (emitted build g) = [c]
        /\ fst (build g)
           = {| Earlier.GithubRepository.node := (scope ++ [name])%list;
                Earlier.GithubRepository.resource :=
                  OfRepository ((scope ++ [name]) ++ ["repo"])%list c;
                Earlier.GithubRepository.provider :=
                  Earlier.provider config |})
  /\ (forall config : Later.RepositoryConfig,
         let build := Later.GithubRepository.constructor scope name config in
         exists c,
           repositories (emitted build g) = [c]
           /\ fst (build g)
              = {| Later.GithubRepository.node := (scope ++ [name])%list;
                   Later.GithubRepository.resource :=
                     OfRepository ((scope ++ [name]) ++ ["repo"])%list c;
                   Later.GithubRepository.provider :=
                     Later.provider config |}).
Proof.
  split; intros config build; subst build; emitted_repository.
  - rewrite (Appends_spec (Appends_Earlier_GithubRepository scope name config)).
    cbn [fst]. unfold result.
    destruct config as [ds tp tm [[|]|] pmc url pv];
      eexists; (split; reflexivity).
  - rewrite (Appends_spec (Appends_Later_GithubRepository scope name config)).
    cbn [fst]. unfold result.
    destruct config as [ds tp tm pm pmc url pv];
      unfold Later.GithubRepository.constructor,
        Later.RepositorySetup.constructor, declared;
      cbn [Later.spread Later.webhookUrl Later.protectMain
           Later.RepositorySetup.webhookUrl
           Later.RepositorySetup.protectMain];
      destruct pm as [[|]|]; destruct (truthy url);
      eexists; (split; reflexivity).
Qed.

(** C9.  [addSecret(name)] declares exactly one thing, a secret binding; the
    binding refers to the repository resource that the instance declared
    when it was constructed and to the provider of its config. *)
Theorem addSecret_binding (g g' : Graph) (scope : Path) (name secret : string) :
  (forall config : Earlier.RepositoryConfig,
      let this :=
        fst (Earlier.GithubRepository.constructor scope name config g) in
      exists c,
        repositories
          (emitted (Earlier.GithubRepository.constructor scope name config) g)
        = [c]
        /\ map kindOf
             (emitted (Earlier.GithubRepository.addSecret this secret) g')
           = [KActionsSecret]
        /\ actionsSecrets
             (emitted (Earlier.GithubRepository.addSecret this secret) g')
           = [ {| ActionsSecret.variable := secret;
                  ActionsSecret.repository :=
                    OfRepository ((scope ++ [name]) ++ ["repo"])%list c;
                  ActionsSecret.provider := Earlier.provider config |} ])
  /\ (forall config : Later.RepositoryConfig,
         let this :=
           fst (Later.GithubRepository.constructor scope name config g) in
         exists c,
           repositories
             (emitted (Later.GithubRepository.constructor scope name config) g)
           = [c]
           /\ map kindOf
                (emitted (Later.GithubRepository.addSecret this secret) g')
              = [KActionsSecret]
           /\ actionsSecrets
                (emitted (Later.GithubRepository.addSecret this secret) g')
              = [ {| ActionsSecret.variable := secret;
                     ActionsSecret.repository :=
                       OfRepository ((scope ++ [name]) ++ ["repo"])%list c;
                     ActionsSecret.provider := Later.provider config |} ]).
Proof.
  split; intros config this; subst this.
  - destruct (proj1 (GithubRepository_instance g scope name) config)
      as (c & Hc & ->).
    exists c. split; [exact Hc|].
    rewrite Appends_emitted by apply Appends_Earlier_addSecret.
    split; reflexivity.
  - destruct (proj2 (GithubRepository_instance g scope name) config)
      as (c & Hc & ->).
    exists c. split; [exact Hc|].
    rewrite Appends_emitted by apply Appends_Later_addSecret.
    split; reflexivity.
Qed.

(** ** GithubRepositoryFromExistingRepository *)

(** C10, as stated, fails: a config for an existing repository that carries
    [protectMain: true] beyond its declared properties gets a branch
    protection in the earlier revision, since the spread copies it. *)
Lemma existing_repository_protection_counterexample :
  branchProtections
    (emitted
       (Earlier.GithubRepositoryFromExistingRepository.constructor
          Sample.stack "cdktf-provider-aws" (Case.earlierExisting (Some true)))
       Sample.busy)
  <> [].
Proof.
  rewrite Appends_emitted by apply Appends_Earlier_FromExisting.
  discriminate.
Qed.

(** C10, amended.  In the revisions whose config type has no [protectMain],
    the construct for an existing repository declares no branch protection
    for every config that has no [protectMain] property, as every config
    written out at the declared type has, or has it false; it declares one
    exactly when the config carries a true [protectMain].  In the later
    revision, whose config is the full [RepositoryConfig], it declares one
    exactly when [protectMain] is true, and does so for some config. *)
Theorem existing_repository_protection (g : Graph) (scope : Path)
    (name : string) :
  (forall config : Earlier.GithubRepositoryFromExistingRepository.Config,
      Earlier.GithubRepositoryFromExistingRepository.protectMain config = None
      \/ Earlier.GithubRepositoryFromExistingRepository.protectMain config
         = Some false ->
      branchProtections
        (emitted
           (Earlier.GithubRepositoryFromExistingRepository.constructor
              scope name config) g)
      = [])
  /\ (forall config : Initial.GithubRepositoryFromExistingRepository.Config,
         Initial.GithubRepositoryFromExistingRepository.protectMain config
         = None
         \/ Initial.GithubRepositoryFromExistingRepository.protectMain config
            = Some false ->
         branchProtections
           (emitted
              (Initial.GithubRepositoryFromExistingRepository.constructor
                 scope name config) g)
         = [])
  /\ (forall config : Earlier.GithubRepositoryFromExistingRepository.Config,
         length
           (branchProtections
              (emitted
                 (Earlier.GithubRepositoryFromExistingRepository.constructor
                    scope name config) g))
         = if orDefault false
                (Earlier.GithubRepositoryFromExistingRepository.protectMain
                   config)
           then 1 else 0)
  /\ (forall config : Initial.GithubRepositoryFromExistingRepository.Config,
         length
           (branchProtections
              (emitted
                 (Initial.GithubRepositoryFromExistingRepository.constructor
                    scope name config) g))
         = if orDefault false
                (Initial.GithubRepositoryFromExistingRepository.protectMain
                   config)
           then 1 else 0)
  /\ (forall config : Later.GithubRepositoryFromExistingRepository.Config,
         length
           (branchProtections
              (emitted
                 (Later.GithubRepositoryFromExistingRepository.constructor
                    scope name config) g))
         = if orDefault false
                (Later.GithubRepositoryFromExistingRepository.protectMain
                   config)
           then 1 else 0)
  /\ (exists config : Later.GithubRepositoryFromExistingRepository.Config,
         branchProtections
           (emitted
              (Later.GithubRepositoryFromExistingRepository.constructor
                 scope name config) g)
         <> []).
Proof.
  repeat apply conj.
  - intros [tm url pv rn pm pmc] H. cbn in H.
    rewrite Appends_emitted by apply Appends_Earlier_FromExisting.
    destruct H as [-> | ->]; reflexivity.
  - intros [tm url pv rn pm pmc] H. cbn in H.
    rewrite Appends_emitted by apply Appends_Initial_FromExisting.
    destruct H as [-> | ->]; reflexivity.
  - intros [tm url pv rn [[|]|] pmc];
      rewrite Appends_emitted by apply Appends_Earlier_FromExisting;
      reflexivity.
  - intros [tm url pv rn [[|]|] pmc];
      rewrite Appends_emitted by apply Appends_Initial_FromExisting;
      reflexivity.
  - intros [ds tp tm pm pmc url pv rn].
    rewrite Appends_emitted by apply Appends_Later_FromExisting.
    unfold Later.GithubRepositoryFromExistingRepository.constructor,
      Later.RepositorySetup.constructor, declared.
    cbn [Later.GithubRepositoryFromExistingRepository.spread
         Later.GithubRepositoryFromExistingRepository.webhookUrl
         Later.GithubRepositoryFromExistingRepository.protectMain
         Later.RepositorySetup.webhookUrl
         Later.RepositorySetup.protectMain].
    destruct pm as [[|]|]; destruct (truthy url); reflexivity.
  - exists (Sample.laterExisting (Some true)).
    rewrite Appends_emitted by apply Appends_Later_FromExisting.
    discriminate.
Qed.

Lemma existing_repository_protection_witness :
  branchProtections
    (emitted
       (Earlier.GithubRepositoryFromExistingRepository.constructor
          Sample.stack "cdktf-provider-aws" (Case.earlierExisting None))
       Sample.busy)
  = []
  /\ branchProtections
       (emitted
          (Initial.GithubRepositoryFromExistingRepository.constructor
             Sample.stack "cdktf-provider-aws"
             (Case.initialExisting (Some false)))
          Sample.busy)
     = [].
Proof.
  destruct (existing_repository_protection Sample.busy Sample.stack
              "cdktf-provider-aws") as [HE [HI _]].
  split.
  - apply HE. left. reflexivity.
  - apply HI. right. reflexivity.
Defined.

(** * Further properties *)

Ltac later_setup_cases pm url :=
  unfold Later.GithubRepository.constructor,
    Later.GithubRepositoryFromExistingRepository.constructor,
    Later.RepositorySetup.constructor, declared, result;
  cbn [Later.spread Later.webhookUrl Later.protectMain
       Later.GithubRepositoryFromExistingRepository.spread
       Later.GithubRepositoryFromExistingRepository.webhookUrl
       Later.GithubRepositoryFromExistingRepository.protectMain
       Later.RepositorySetup.webhookUrl Later.RepositorySetup.protectMain];
  destruct pm as [[|]|]; destruct (truthy url).

(** ** Defaults *)

(** The description of the repository declared is the one given, also when
    it is the empty string, and the fixed text when none is given. *)
Theorem repository_description (g : Graph) (scope : Path) (name : string) :
  (forall config : Initial.RepositoryConfig,
      map Repository.description
        (repositories
           (emitted (Initial.GithubRepository.constructor scope name config) g))
      = [ match Initial.description config with
          | None =>
              "Repository management for prebuilt cdktf providers via cdktf"
          | Some given => given
          end ])
  /\ (forall config : Earlier.RepositoryConfig,
         map Repository.description
           (repositories
              (emitted (Earlier.GithubRepository.constructor scope name config)
                 g))
         = [ match Earlier.description config with
             | None =>
                 "Repository management for prebuilt cdktf providers via cdktf"
             | Some given => given
             end ])
  /\ (forall config : Later.RepositoryConfig,
         map Repository.description
           (repositories
              (emitted (Later.GithubRepository.constructor scope name config)
                 g))
         = [ match Later.description config with
             | None =>
                 "Repository management for prebuilt cdktf providers via cdktf"
             | Some given => given
             end ]).
Proof.
  split; [|split]; intro config; emitted_repository.
  - destruct config as [[ds|] tp tm [[|]|] pmc url pv]; reflexivity.
  - destruct config as [[ds|] tp tm [[|]|] pmc url pv]; reflexivity.
  - destruct config as [[ds|] tp tm pm pmc url pv];
      later_setup_cases pm url; reflexivity.
Qed.

(** When [protectMain] is true and [protectMainChecks] is given, the required
    status checks are the list given, as it is (also when it is empty), and
    they stay strict. *)
Theorem branch_protection_checks_given (g : Graph) (scope : Path)
    (name : string) (checks : list string) :
  (forall config : Initial.RepositorySetup.Config,
      Initial.RepositorySetup.protectMain config = Some true ->
      Initial.RepositorySetup.protectMainChecks config = Some checks ->
      map BranchProtection.requiredStatusChecks
        (branchProtections
           (emitted (Initial.RepositorySetup.constructor scope name config) g))
      = [[ {| BranchProtection.strict := true;
              BranchProtection.contexts := checks |} ]])
  /\ (forall config : Earlier.RepositorySetup.Config,
         Earlier.RepositorySetup.protectMain config = Some true ->
         Earlier.RepositorySetup.protectMainChecks config = Some checks ->
         map BranchProtection.requiredStatusChecks
           (branchProtections
              (emitted (Earlier.RepositorySetup.constructor scope name config)
                 g))
         = [[ {| BranchProtection.strict := true;
                 BranchProtection.contexts := checks |} ]])
  /\ (forall config : Later.RepositorySetup.Config,
         Later.RepositorySetup.protectMain config = Some true ->
         Later.RepositorySetup.protectMainChecks config = Some checks ->
         map BranchProtection.requiredStatusChecks
           (branchProtections
              (emitted (Later.RepositorySetup.constructor scope name config) g))
         = [[ {| BranchProtection.strict := true;
                 BranchProtection.contexts := checks |} ]]).
Proof.
  split; [|split]; intros [tm url pv pm pmc repo] Hpm Hpmc;
    cbn in Hpm, Hpmc; subst pmc.
  - emitted_Initial. subst pm. reflexivity.
  - emitted_Earlier. subst pm. reflexivity.
  - emitted_Later. later_setup_cases pm url; try discriminate; reflexivity.
Qed.

Lemma branch_protection_checks_given_witness :
  map BranchProtection.requiredStatusChecks
    (branchProtections
       (emitted
          (Initial.RepositorySetup.constructor Sample.stack "repository-setup"
             (Case.initialSetup (Some true) (Some [])
                (Sample.existing "cdktf-provider-aws")))
          Sample.busy))
  = [[ {| BranchProtection.strict := true;
          BranchProtection.contexts := [] |} ]]
  /\ map BranchProtection.requiredStatusChecks
       (branchProtections
          (emitted
             (Earlier.RepositorySetup.constructor Sample.stack
                "repository-setup"
                (Case.earlierSetup (Some true) (Some ["build"; "lint"])
                   (Sample.existing "cdktf-provider-aws")))
             Sample.busy))
     = [[ {| BranchProtection.strict := true;
             BranchProtection.contexts := ["build"; "lint"] |} ]]
  /\ map BranchProtection.requiredStatusChecks
       (branchProtections
          (emitted
             (Later.RepositorySetup.constructor Sample.stack
                "repository-setup"
                (Case.laterSetup (Some true) (Some []) None
                   (Sample.existing "cdktf-provider-aws")))
             Sample.busy))
     = [[ {| BranchProtection.strict := true;
             BranchProtection.contexts := [] |} ]].
Proof.
  split; [|split].
  - apply (proj1 (branch_protection_checks_given Sample.busy Sample.stack
                    "repository-setup" [])); reflexivity.
  - apply (proj1 (proj2 (branch_protection_checks_given Sample.busy
                           Sample.stack "repository-setup"
                           ["build"; "lint"]))); reflexivity.
  - apply (proj2 (proj2 (branch_protection_checks_given Sample.busy
                           Sample.stack "repository-setup" [])));
      reflexivity.
Defined.

(** Without [protectMain] the checks are not used: the bundle is the same
    whatever [protectMainChecks] is. *)
Theorem checks_unused_without_protection (g : Graph) (scope : Path)
    (name : string) (tm : ITeam) (pv : GithubProvider)
    (pm : option bool) (repo : RepositoryHandle)
    (checks checks' : option (list string)) :
  orDefault false pm = false ->
  (forall url : string,
      emitted
        (Earlier.RepositorySetup.constructor scope name
           {| Earlier.RepositorySetup.team := tm;
              Earlier.RepositorySetup.webhookUrl := url;
              Earlier.RepositorySetup.provider := pv;
              Earlier.RepositorySetup.protectMain := pm;
              Earlier.RepositorySetup.protectMainChecks := checks;
              Earlier.RepositorySetup.repository := repo |}) g
      = emitted
          (Earlier.RepositorySetup.constructor scope name
             {| Earlier.RepositorySetup.team := tm;
                Earlier.RepositorySetup.webhookUrl := url;
                Earlier.RepositorySetup.provider := pv;
                Earlier.RepositorySetup.protectMain := pm;
                Earlier.RepositorySetup.protectMainChecks := checks';
                Earlier.RepositorySetup.repository := repo |}) g)
  /\ (forall url : option string,
         emitted
           (Later.RepositorySetup.constructor scope name
              {| Later.RepositorySetup.team := tm;
                 Later.RepositorySetup.webhookUrl := url;
                 Later.RepositorySetup.provider := pv;
                 Later.RepositorySetup.protectMain := pm;
                 Later.RepositorySetup.protectMainChecks := checks;
                 Later.RepositorySetup.repository := repo |}) g
         = emitted
             (Later.RepositorySetup.constructor scope name
                {| Later.RepositorySetup.team := tm;
                   Later.RepositorySetup.webhookUrl := url;
                   Later.RepositorySetup.provider := pv;
                   Later.RepositorySetup.protectMain := pm;
                   Later.RepositorySetup.protectMainChecks := checks';
                   Later.RepositorySetup.repository := repo |}) g).
Proof.
  intro H. split; intro url.
  - do 2 emitted_Earlier. destruct pm as [[|]|]; try discriminate;
      reflexivity.
  - do 2 emitted_Later. destruct pm as [[|]|]; try discriminate;
      reflexivity.
Qed.

Lemma checks_unused_without_protection_witness :
  emitted
    (Later.RepositorySetup.constructor Sample.stack "repository-setup"
       (Case.laterSetup None (Some ["build"]) None
          (Sample.existing "cdktf-provider-aws"))) Sample.busy
  = emitted
      (Later.RepositorySetup.constructor Sample.stack "repository-setup"
         (Case.laterSetup None None None
            (Sample.existing "cdktf-provider-aws"))) Sample.busy.
Proof.
  apply (proj2 (checks_unused_without_protection Sample.busy Sample.stack
                  "repository-setup" Sample.tfCdkTeam Sample.github None
                  (Sample.existing "cdktf-provider-aws") (Some ["build"])
                  None eq_refl) None).
Defined.

(** ** What the bundle depends on *)

(** The bundle uses the repository handle for its name attribute only: two
    handles with the same name attribute, such as the same repository
    construct declared with different settings, give the same bundle. *)
Theorem bundle_depends_on_name_only (g : Graph) (scope : Path) (name : string)
    (tm : ITeam) (pv : GithubProvider) (pm : option bool)
    (checks : option (list string)) (repo repo' : RepositoryHandle) :
  RepositoryHandle.name repo = RepositoryHandle.name repo' ->
  (forall url : string,
      emitted
        (Earlier.RepositorySetup.constructor scope name
           {| Earlier.RepositorySetup.team := tm;
              Earlier.RepositorySetup.webhookUrl := url;
              Earlier.RepositorySetup.provider := pv;
              Earlier.RepositorySetup.protectMain := pm;
              Earlier.RepositorySetup.protectMainChecks := checks;
              Earlier.RepositorySetup.repository := repo |}) g
      = emitted
          (Earlier.RepositorySetup.constructor scope name
             {| Earlier.RepositorySetup.team := tm;
                Earlier.RepositorySetup.webhookUrl := url;
                Earlier.RepositorySetup.provider := pv;
                Earlier.RepositorySetup.protectMain := pm;
                Earlier.RepositorySetup.protectMainChecks := checks;
                Earlier.RepositorySetup.repository := repo' |}) g)
  /\ (forall url : option string,
         emitted
           (Later.RepositorySetup.constructor scope name
              {| Later.RepositorySetup.team := tm;
                 Later.RepositorySetup.webhookUrl := url;
                 Later.RepositorySetup.provider := pv;
                 Later.RepositorySetup.protectMain := pm;
                 Later.RepositorySetup.protectMainChecks := checks;
                 Later.RepositorySetup.repository := repo |}) g
         = emitted
             (Later.RepositorySetup.constructor scope name
                {| Later.RepositorySetup.team := tm;
                   Later.RepositorySetup.webhookUrl := url;
                   Later.RepositorySetup.provider := pv;
                   Later.RepositorySetup.protectMain := pm;
                   Later.RepositorySetup.protectMainChecks := checks;
                   Later.RepositorySetup.repository := repo' |}) g).
Proof.
  intro H. split; intro url.
  - do 2 emitted_Earlier.
    unfold Earlier.RepositorySetup.constructor, declared.
    cbn [Earlier.RepositorySetup.repository]. rewrite H. reflexivity.
  - do 2 emitted_Later.
    unfold Later.RepositorySetup.constructor, declared.
    cbn [Later.RepositorySetup.repository]. rewrite H. reflexivity.
Qed.

Lemma bundle_depends_on_name_only_witness :
  emitted
    (Later.RepositorySetup.constructor Sample.stack "repository-setup"
       (Case.laterSetup (Some true) None None
          (Case.created "cdktf-provider-aws"))) Sample.busy
  = emitted
      (Later.RepositorySetup.constructor Sample.stack "repository-setup"
         (Case.laterSetup (Some true) None None
            (Case.resettled "cdktf-provider-aws"))) Sample.busy.
Proof.
  apply (proj2 (@bundle_depends_on_name_only Sample.busy Sample.stack
                  "repository-setup" Sample.tfCdkTeam Sample.github
                  (Some true) None (Case.created "cdktf-provider-aws")
                  (Case.resettled "cdktf-provider-aws") eq_refl) None).
Defined.

(** Every declaration of the bundle is given the provider of the config,
    except the CODEOWNERS file, which is given none. *)
Theorem bundle_providers (g : Graph) (scope : Path) (name : string) :
  (forall config : Initial.RepositorySetup.Config,
      Forall
        (fun d =>
           providerOf d = Some (Initial.RepositorySetup.provider config))
        (emitted (Initial.RepositorySetup.constructor scope name config) g))
  /\ (forall config : Earlier.RepositorySetup.Config,
         Forall
           (fun d =>
              providerOf d
              = match kindOf d with
                | KRepositoryFile => None
                | _ => Some (Earlier.RepositorySetup.provider config)
                end)
           (emitted (Earlier.RepositorySetup.constructor scope name config) g)
         /\ map RepositoryFile.provider
              (repositoryFiles
                 (emitted
                    (Earlier.RepositorySetup.constructor scope name config) g))
            = [None])
  /\ (forall config : Later.RepositorySetup.Config,
         Forall
           (fun d =>
              providerOf d = Some (Later.RepositorySetup.provider config))
           (emitted (Later.RepositorySetup.constructor scope name config) g)).
Proof.
  split; [|split].
  - intros [tm url pv pm pmc repo]. emitted_Initial.
    destruct pm as [[|]|]; repeat constructor.
  - intros [tm url pv pm pmc repo]. emitted_Earlier.
    destruct pm as [[|]|]; split; repeat constructor.
  - intros [tm url pv pm pmc repo]. emitted_Later.
    later_setup_cases pm url; repeat constructor.
Qed.

(** ** Places in the construct tree *)

Lemma NoDup_map_injective {A B : Type} (f : A -> B) (l : list A) :
  (forall x y, f x = f y -> x = y) -> NoDup l -> NoDup (map f l).
Proof.
  intros Hf Hl. induction Hl as [|x l Hx Hl IH]; cbn [map]; constructor.
  - intro Hin. apply in_map_iff in Hin. destruct Hin as (y & Hy & Hin).
    apply Hf in Hy. subst y. exact (Hx Hin).
  - exact IH.
Qed.

Lemma child_injective (this : Path) (i j : string) :
  (this ++ [i])%list = (this ++ [j])%list -> i = j.
Proof.
  intro H. apply app_inv_head in H. congruence.
Qed.

Ltac distinct_ids :=
  repeat constructor; cbn [In]; intuition discriminate.

Ltac paths_then_distinct :=
  match goal with
  | |- ?L = ?R /\ _ =>
      let H := fresh "H" in
      assert (H : L = R) by reflexivity;
      split;
      [ exact H
      | rewrite H; apply NoDup_map_injective;
        [ intros ? ?; apply child_injective | simpl; distinct_ids ] ]
  end.

(** The bundle's declarations are the children of the [RepositorySetup]
    construct with the ids the source gives them, and no two of them have the
    same place in the tree. *)
Theorem bundle_paths (g : Graph) (scope : Path) (name : string) :
  (forall config : Earlier.RepositorySetup.Config,
      let out :=
        emitted (Earlier.RepositorySetup.constructor scope name config) g in
      map path out
      = map (fun id_ => ((scope ++ [name]) ++ [id_])%list)
          (["automerge-label"]
           ++ (if orDefault false (Earlier.RepositorySetup.protectMain config)
               then ["main-protection"] else [])
           ++ ["managing-team"; "slack-webhook"; "codeowners"])%list
      /\ NoDup (map path out))
  /\ (forall config : Later.RepositorySetup.Config,
         let out :=
           emitted (Later.RepositorySetup.constructor scope name config) g in
         map path out
         = map (fun id_ => ((scope ++ [name]) ++ [id_])%list)
             (["automerge-label"; "no-auto-close-label"; "auto-approve-label"]
              ++ (if orDefault false (Later.RepositorySetup.protectMain config)
                  then ["main-protection"] else [])
              ++ ["managing-team"]
              ++ (if truthy (Later.RepositorySetup.webhookUrl config)
                  then ["slack-webhook"] else []))%list
         /\ NoDup (map path out))
  /\ (forall config : Initial.RepositorySetup.Config,
         let out :=
           emitted (Initial.RepositorySetup.constructor scope name config) g in
         map path out
         = map (fun id_ => ((scope ++ [name]) ++ [id_])%list)
             (["automerge-label"]
              ++ (if orDefault false
                       (Initial.RepositorySetup.protectMain config)
                  then ["main-protection"] else [])
              ++ ["managing-team"; "slack-webhook"])%list
         /\ NoDup (map path out)).
Proof.
  split; [|split]; intros [tm url pv pm pmc repo] out; subst out.
  - emitted_Earlier. destruct pm as [[|]|]; paths_then_distinct.
  - emitted_Later. later_setup_cases pm url; paths_then_distinct.
  - emitted_Initial. destruct pm as [[|]|]; paths_then_distinct.
Qed.



(** ** Delegation *)






(** From end to end: every auxiliary declaration that [GithubRepository]
    makes refers to the name attribute of the repository the same construct
    declares, which is configured with the construct's name; and every
    auxiliary declaration that [GithubRepositoryFromExistingRepository] makes
    refers to the name attribute of the lookup it declares, which looks up
    [repositoryName], whatever the construct is called. *)
Theorem constructs_refer_to_one_repository (g : Graph) (scope : Path)
    (name : string) :
  (forall config : Earlier.RepositoryConfig,
      exists c,
        Repository.name c = name
        /\ Forall
             (fun d =>
                match resource d with
                | Repository c' => c' = c
                | _ =>
                    repositoryOf d
                    = Some
                        (RepositoryHandle.name
                           (OfRepository
                              ((scope ++ [name]) ++ ["repo"])%list c))
                end)
             (emitted (Earlier.GithubRepository.constructor scope name config)
                g))
  /\ (forall config : Later.RepositoryConfig,
         exists c,
           Repository.name c = name
           /\ Forall
                (fun d =>
                   match resource d with
                   | Repository c' => c' = c
                   | _ =>
                       repositoryOf d
                       = Some
                           (RepositoryHandle.name
                              (OfRepository
                                 ((scope ++ [name]) ++ ["repo"])%list c))
                   end)
                (emitted
                   (Later.GithubRepository.constructor scope name config) g))
  /\ (forall config : Earlier.GithubRepositoryFromExistingRepository.Config,
         let data :=
           {| DataGithubRepository.name :=
                Earlier.GithubRepositoryFromExistingRepository.repositoryName
                  config;
              DataGithubRepository.provider :=
                Earlier.GithubRepositoryFromExistingRepository.provider
                  config |} in
         Forall
           (fun d =>
              match resource d with
              | DataGithubRepository c' => c' = data
              | _ =>
                  repositoryOf d
                  = Some
                      (RepositoryHandle.name
                         (OfDataGithubRepository
                            ((scope ++ [name]) ++ ["repo"])%list data))
              end)
           (emitted
              (Earlier.GithubRepositoryFromExistingRepository.constructor
                 scope name config) g))
  /\ (forall config : Later.GithubRepositoryFromExistingRepository.Config,
         let data :=
           {| DataGithubRepository.name :=
                Later.GithubRepositoryFromExistingRepository.repositoryName
                  config;
              DataGithubRepository.provider :=
                Later.GithubRepositoryFromExistingRepository.provider
                  config |} in
         Forall
           (fun d =>
              match resource d with
              | DataGithubRepository c' => c' = data
              | _ =>
                  repositoryOf d
                  = Some
                      (RepositoryHandle.name
                         (OfDataGithubRepository
                            ((scope ++ [name]) ++ ["repo"])%list data))
              end)
           (emitted
              (Later.GithubRepositoryFromExistingRepository.constructor
                 scope name config) g)).
Proof.
  split; [|split; [|split]]; intro config.
  - emitted_repository.
    destruct config as [ds tp tm [[|]|] pmc url pv];
      eexists; (split; [|repeat constructor]); reflexivity.
  - emitted_repository. destruct config as [ds tp tm pm pmc url pv].
    later_setup_cases pm url;
      eexists; (split; [|repeat constructor]); reflexivity.
  - intro data. subst data.
    rewrite Appends_emitted by apply Appends_Earlier_FromExisting.
    destruct config as [tm url pv rn [[|]|] pmc]; repeat constructor.
  - intro data. subst data.
    rewrite Appends_emitted by apply Appends_Later_FromExisting.
    destruct config as [ds tp tm pm pmc url pv rn].
    later_setup_cases pm url; repeat constructor.
Qed.

(** ** Logical ids *)

(** In the later revision the logical id is pinned on every declaration of
    the bundle except the [auto-approve] label; the earlier revisions pin
    none. *)
Theorem pinned_logical_ids (g : Graph) (scope : Path) (name : string) :
  (forall config : Later.RepositorySetup.Config,
      map (fun d => (path d, oldId d))
        (emitted (Later.RepositorySetup.constructor scope name config) g)
      = map (fun entry => (((scope ++ [name]) ++ [fst entry])%list, snd entry))
          ([ ("automerge-label", true);
             ("no-auto-close-label", true);
             ("auto-approve-label", false) ]
           ++ (if orDefault false (Later.RepositorySetup.protectMain config)
               then [("main-protection", true)] else [])
           ++ [("managing-team", true)]
           ++ (if truthy (Later.RepositorySetup.webhookUrl config)
               then [("slack-webhook", true)] else []))%list)
  /\ (forall config : Earlier.RepositorySetup.Config,
         Forall (fun d => oldId d = false)
           (emitted (Earlier.RepositorySetup.constructor scope name config) g))
  /\ (forall config : Initial.RepositorySetup.Config,
         Forall (fun d => oldId d = false)
           (emitted (Initial.RepositorySetup.constructor scope name config) g)).
Proof.
  split; [|split]; intros [tm url pv pm pmc repo].
  - emitted_Later. later_setup_cases pm url; reflexivity.
  - emitted_Earlier. destruct pm as [[|]|]; repeat constructor.
  - emitted_Initial. destruct pm as [[|]|]; repeat constructor.
Qed.

(** ** Between the revisions *)

(** The revision with the CODEOWNERS file declares what the first revision
    declares for the same config, followed by the CODEOWNERS file. *)
Theorem codeowners_is_the_only_addition (g : Graph) (scope : Path)
    (name : string) (config : Earlier.RepositorySetup.Config) :
  exists file,
    emitted (Earlier.RepositorySetup.constructor scope name config) g
    = (emitted
         (Initial.RepositorySetup.constructor scope name (asInitial config)) g
       ++ [file])%list
    /\ kindOf file = KRepositoryFile
    /\ path file = ((scope ++ [name]) ++ ["codeowners"])%list.
Proof.
  emitted_Earlier. emitted_Initial.
  destruct config as [tm url pv pm pmc repo].
  destruct pm as [[|]|]; eexists; repeat split.
Qed.

(** ** The CODEOWNERS file *)

(** Whatever the config, the earlier revision declares the CODEOWNERS file
    exactly once and last: for the repository of the handle, at
    [.github/CODEOWNERS], with the five lines of the source joined by line
    feeds (none after the last line), with the interpolation of the count
    expression over the repository's name as [count], and without a
    provider. *)
Theorem codeowners_file (g : Graph) (scope : Path) (name : string)
    (config : Earlier.RepositorySetup.Config) :
  let out :=
    emitted (Earlier.RepositorySetup.constructor scope name config) g in
  let file :=
    {| RepositoryFile.repository :=
         RepositoryHandle.name (Earlier.RepositorySetup.repository config);
       RepositoryFile.count :=
         interpolation
           (Earlier.codeownersCount
              (RepositoryHandle.name
                 (Earlier.RepositorySetup.repository config)));
       RepositoryFile.file := ".github/CODEOWNERS";
       RepositoryFile.content :=
         "# These owners will be the default owners for everything in "
         ++ lf ++ "# the repo. Unless a later match takes precedence, "
         ++ lf ++ "# they will be requested for review when someone opens a "
         ++ lf ++ "# pull request."
         ++ lf ++ "*       @cdktf/tf-cdk-team";
       RepositoryFile.provider := None |} in
  repositoryFiles out = [file]
  /\ map resource (skipn (length out - 1) out) = [RepositoryFile file].
Proof.
  intros out file. subst out file. emitted_Earlier.
  rewrite codeownersCount_render.
  destruct config as [tm url pv pm pmc repo].
  destruct pm as [[|]|]; split; reflexivity.
Qed.

(** ** Issues *)

(** In the later revision the repository is declared without issues exactly
    when the construct's name is some text followed by [-go]. *)
Theorem issues_disabled_for_go (g : Graph) (scope : Path) (name : string)
    (config : Later.RepositoryConfig) :
  map Repository.hasIssues
    (repositories
       (emitted (Later.GithubRepository.constructor scope name config) g))
  = [false]
  <-> exists stem, name = stem ++ "-go".
Proof.
  rewrite <- endsWith_spec. emitted_repository.
  destruct config as [ds tp tm pm pmc url pv].
  later_setup_cases pm url; cbn [repositories flat_map map resource app
                                  Repository.hasIssues];
    destruct (endsWith name "-go"); cbn; split; congruence.
Qed.

(** ** Several repositories in one scope *)

Ltac under :=
  unfold Under;
  repeat (constructor;
          [ eexists; first [ reflexivity | symmetry; apply app_assoc ] | ]);
  constructor.

Lemma Under_apart (scope : Path) (name name' : string) (out out' : Graph) :
  name <> name' ->
  Under (scope ++ [name])%list out ->
  Under (scope ++ [name'])%list out' ->
  forall d d', In d out -> In d' out' -> path d <> path d'.
Proof.
  intros Hne Hout Hout' d d' Hd Hd' E.
  unfold Under in Hout, Hout'. rewrite Forall_forall in Hout, Hout'.
  destruct (Hout d Hd) as [rest Hp]. destruct (Hout' d' Hd') as [rest' Hp'].
  rewrite Hp, Hp', <- !app_assoc in E. apply app_inv_head in E.
  cbn in E. congruence.
Qed.

Lemma constructed_Under (g : Graph) (scope : Path) (name : string)
    (k : Construct) :
  Under (scope ++ [name])%list (constructed scope name k g).
Proof.
  destruct k as [c|c|c|c|c|c]; unfold constructed.
  - emitted_repository.
    destruct c as [ds tp tm [[|]|] pmc url pv]; under.
  - rewrite Appends_emitted by apply Appends_Initial_FromExisting.
    destruct c as [tm url pv rn [[|]|] pmc]; under.
  - emitted_repository.
    destruct c as [ds tp tm [[|]|] pmc url pv]; under.
  - rewrite Appends_emitted by apply Appends_Earlier_FromExisting.
    destruct c as [tm url pv rn [[|]|] pmc]; under.
  - emitted_repository.
    destruct c as [ds tp tm pm pmc url pv].
    later_setup_cases pm url; under.
  - rewrite Appends_emitted by apply Appends_Later_FromExisting.
    destruct c as [ds tp tm pm pmc url pv rn].
    later_setup_cases pm url; under.
Qed.

(** Every declaration of a construct, a [GithubRepository] or a
    [GithubRepositoryFromExistingRepository] of any revision, lies below the
    construct; so the declarations of two constructs that are given different
    names in one scope, each of either kind, never share a place in the
    tree. *)
Theorem constructs_do_not_collide (g g' : Graph) (scope : Path)
    (name name' : string) (k k' : Construct) :
  Under (scope ++ [name])%list (constructed scope name k g)
  /\ (name <> name' ->
      forall d d',
        In d (constructed scope name k g) ->
        In d' (constructed scope name' k' g') ->
        path d <> path d').
Proof.
  split.
  - apply constructed_Under.
  - intro Hne. eapply Under_apart; [exact Hne | |]; apply constructed_Under.
Qed.

Lemma constructs_do_not_collide_witness :
  exists d d',
    In d
      (constructed Sample.stack "cdktf-provider-aws"
         (LaterFromExisting (Sample.laterExisting (Some true))) [])
    /\ In d'
         (constructed Sample.stack "cdktf-provider-aws-go"
            (LaterFromExisting (Sample.laterExisting None)) Sample.busy)
    /\ path d <> path d'.
Proof.
  assert (Hne : "cdktf-provider-aws" <> "cdktf-provider-aws-go")
    by discriminate.
  eexists. eexists.
  split; [cbv; left; reflexivity|].
  split; [cbv; left; reflexivity|].
  apply (proj2 (constructs_do_not_collide [] Sample.busy Sample.stack
                  "cdktf-provider-aws" "cdktf-provider-aws-go"
                  (LaterFromExisting (Sample.laterExisting (Some true)))
                  (LaterFromExisting (Sample.laterExisting None))) Hne).
  - cbv. left. reflexivity.
  - cbv. left. reflexivity.
Defined.
